(** * bubbles: the text input and the viewport

    A shallow embedding of the two widgets of [src/input/input.go]
    (package [input], the single-line text field, and package [viewport],
    the pager) together with the properties their description states.
    The form of package [main], which the same file holds, follows.

    Go values are modelled as the program has them:
    - [int] is a 64-bit signed integer: a [Z] together with the
      wrap-around of every addition and subtraction ([Go.add], [Go.sub]);
    - [string] is a sequence of bytes ([list ascii]); slicing and indexing
      panic outside of the bounds, as the Go runtime does;
    - a function that can panic returns a [Go.result];
    - a method with a pointer receiver is a function from the receiver's
      state to its state after the call; a method with a value receiver
      works on a copy, and the caller's state is what it was. *)

From Stdlib Require Import ZArith List Ascii String Bool Lia.
Import ListNotations.
Open Scope Z_scope.

(** ** The Go runtime and the [strings] package *)

Module Go.

(** Run-time panics that the modelled code can raise. *)
Inductive panic : Type :=
| SliceBounds      (* slice bounds out of range *)
| IndexRange       (* index out of range *)
| NegativeRepeat.  (* strings: negative Repeat count *)

Inductive result (A : Type) : Type :=
| Ok (a : A)
| Panic (p : panic).
Arguments Ok {A} a.
Arguments Panic {A} p.

Definition bind {A B : Type} (r : result A) (k : A -> result B) : result B :=
  match r with
  | Ok a => k a
  | Panic p => Panic p
  end.

Definition is_ok {A : Type} (r : result A) : bool :=
  match r with Ok _ => true | Panic _ => false end.

(** *** [int] *)

Definition int_min : Z := Eval cbv in - 2 ^ 63.
Definition int_max : Z := Eval cbv in 2 ^ 63 - 1.
Definition int_modulus : Z := Eval cbv in 2 ^ 64.

Definition is_int (z : Z) : Prop := int_min <= z <= int_max.

(** The value an [int] computation keeps of the exact result [z]. *)
Definition wrap (z : Z) : Z := (z - int_min) mod int_modulus + int_min.

Definition add (a b : Z) : Z := wrap (a + b).
Definition sub (a b : Z) : Z := wrap (a - b).

(** *** [string] and slices *)

Definition gostring : Type := list ascii.

Definition str (s : string) : gostring := list_ascii_of_string s.

Definition LF : ascii := "010"%char.
Definition CR : ascii := "013"%char.

Definition len {A : Type} (s : list A) : Z := Z.of_nat (List.length s).

(** [s[lo:hi]]; [s[:hi]] is [slice s 0 hi] and [s[lo:]] is
    [slice s lo (len s)].  The slices of the program have their
    capacity equal to their length. *)
Definition slice {A : Type} (s : list A) (lo hi : Z) : result (list A) :=
  if (0 <=? lo) && (lo <=? hi) && (hi <=? len s)
  then Ok (firstn (Z.to_nat (hi - lo)) (skipn (Z.to_nat lo) s))
  else Panic SliceBounds.

Definition slice_to {A : Type} (s : list A) (hi : Z) : result (list A) :=
  slice s 0 hi.

Definition slice_from {A : Type} (s : list A) (lo : Z) : result (list A) :=
  slice s lo (len s).

(** [s[i]] *)
Definition index {A : Type} (s : list A) (i : Z) : result A :=
  if (0 <=? i) && (i <? len s)
  then match nth_error s (Z.to_nat i) with
       | Some a => Ok a
       | None => Panic IndexRange
       end
  else Panic IndexRange.

(** [string(b)] for a byte [b]: the UTF-8 encoding of the code point
    [b], one byte below 0x80 and two bytes from there on. *)
Definition string_of_byte (b : ascii) : gostring :=
  let n := Z.of_N (N_of_ascii b) in
  if n <? 128 then [b]
  else [ascii_of_N (Z.to_N (Z.lor 192 (Z.shiftr n 6)));
        ascii_of_N (Z.to_N (Z.lor 128 (Z.land n 63)))].

(** *** Package [strings] *)

Fixpoint has_prefix (s prefix : gostring) {struct prefix} : bool :=
  match prefix, s with
  | [], _ => true
  | _ :: _, [] => false
  | p :: prefix', c :: s' => Ascii.eqb p c && has_prefix s' prefix'
  end.

(** [strings.Replace(s, old, new, n)] for a non-empty [old]: the first
    [n] non-overlapping instances of [old], from the left, are replaced
    by [new]; a negative [n] puts no limit.  [skip] counts the bytes of
    the instance being replaced that are still to be dropped. *)
Fixpoint replace_from (old new : gostring) (skip : nat) (n : Z)
         (s : gostring) : gostring :=
  match s with
  | [] => []
  | c :: s' =>
      match skip with
      | S k => replace_from old new k n s'
      | O =>
          if negb (n =? 0) && has_prefix s old
          then new ++ replace_from old new (Nat.pred (List.length old))
                                   (if n <? 0 then n else n - 1) s'
          else c :: replace_from old new O n s'
      end
  end.

Definition Replace (s old new : gostring) (n : Z) : gostring :=
  replace_from old new O n s.

Definition cons_head (c : ascii) (ls : list gostring) : list gostring :=
  match ls with
  | [] => [[c]]
  | l :: ls' => (c :: l) :: ls'
  end.

(** [strings.Split(s, sep)] for a non-empty [sep]: the substrings
    between the instances of [sep]. *)
Fixpoint split_from (sep : gostring) (skip : nat) (s : gostring)
  : list gostring :=
  match s with
  | [] => [[]]
  | c :: s' =>
      match skip with
      | S k => split_from sep k s'
      | O =>
          if has_prefix s sep
          then [] :: split_from sep (Nat.pred (List.length sep)) s'
          else cons_head c (split_from sep O s')
      end
  end.

Definition Split (s sep : gostring) : list gostring :=
  split_from sep O s.

(** [strings.Repeat(s, count)] *)
Definition Repeat (s : gostring) (count : Z) : result gostring :=
  if count <? 0 then Panic NegativeRepeat
  else Ok (List.concat (List.repeat s (Z.to_nat count))).

(** [strings.Join(elems, sep)] *)
Fixpoint Join (elems : list gostring) (sep : gostring) : gostring :=
  match elems with
  | [] => []
  | [e] => e
  | e :: rest => e ++ sep ++ Join rest sep
  end.

(** [s == name], for the [switch] statements on the name of a key. *)
Definition is_key (s : gostring) (name : string) : bool :=
  if list_eq_dec ascii_dec s (str name) then true else false.

End Go.

Notation "x <- r ;; k" := (Go.bind r (fun x => k))
  (at level 61, r at next level, right associativity).

(** ** Package [input]: the text field *)

Module input.
Import Go.

Record Model : Type := mkModel {
  Prompt : gostring;
  Value : gostring;
  Cursor : gostring;
  HiddenCursor : gostring;
  BlinkSpeed : Z;
  blink : bool;
  pos : Z
}.

Definition set_Value (m : Model) (v : gostring) : Model :=
  mkModel (Prompt m) v (Cursor m) (HiddenCursor m) (BlinkSpeed m)
          (blink m) (pos m).

Definition set_pos (m : Model) (p : Z) : Model :=
  mkModel (Prompt m) (Value m) (Cursor m) (HiddenCursor m) (BlinkSpeed m)
          (blink m) p.

Definition set_blink (m : Model) (b : bool) : Model :=
  mkModel (Prompt m) (Value m) (Cursor m) (HiddenCursor m) (BlinkSpeed m)
          b (pos m).

Definition DefaultModel : Model :=
  mkModel (str "> ") [] [] [] (1000000 * 600) false 0.

(** The key types of [tea.KeyMsg] that [Update] tells apart; every
    other key type is [KeyOther]. *)
Inductive KeyType : Type :=
| KeyBackspace | KeyDelete | KeyLeft | KeyRight
| KeyCtrlA | KeyCtrlD | KeyCtrlE | KeyCtrlK
| KeyRune | KeyOther.

(** A key message: its type and what its [String()] method returns
    (for [KeyRune], the bytes of the rune typed). *)
Record KeyMsg : Type := mkKey {
  Type_ : KeyType;
  String_ : gostring
}.

Inductive Msg : Type :=
| Key (k : KeyMsg)
| CursorBlinkMsg
| OtherMsg.

(** [tea.Cmd]: [Update] only ever returns [nil]. *)
Inductive Cmd : Type := NoCmd.

Definition Update (msg : Msg) (m : Model) : result (Model * Cmd) :=
  match msg with
  | Key k =>
      match Type_ k with
      | KeyBackspace | KeyDelete =>
          if len (Value m) >? 0 then
            front <- slice_to (Value m) (sub (pos m) 1) ;;
            back <- slice_from (Value m) (pos m) ;;
            let m := set_Value m (front ++ back) in
            let m := set_pos m (sub (pos m) 1) in
            Ok (m, NoCmd)
          else Ok (m, NoCmd)
      | KeyLeft =>
          if pos m >? 0
          then Ok (set_pos m (sub (pos m) 1), NoCmd)
          else Ok (m, NoCmd)
      | KeyRight =>
          if pos m <? len (Value m)
          then Ok (set_pos m (add (pos m) 1), NoCmd)
          else Ok (m, NoCmd)
      | KeyCtrlA => Ok (set_pos m 0, NoCmd)
      | KeyCtrlD =>
          if (len (Value m) >? 0) && (pos m <? len (Value m)) then
            front <- slice_to (Value m) (pos m) ;;
            back <- slice_from (Value m) (add (pos m) 1) ;;
            Ok (set_Value m (front ++ back), NoCmd)
          else Ok (m, NoCmd)
      | KeyCtrlE => Ok (set_pos m (sub (len (Value m)) 1), NoCmd)
      | KeyCtrlK =>
          front <- slice_to (Value m) (pos m) ;;
          let m := set_Value m front in
          let m := set_pos m (len (Value m)) in
          Ok (m, NoCmd)
      | KeyRune =>
          front <- slice_to (Value m) (pos m) ;;
          back <- slice_from (Value m) (pos m) ;;
          let m := set_Value m (front ++ String_ k ++ back) in
          let m := set_pos m (add (pos m) 1) in
          Ok (m, NoCmd)
      | KeyOther => Ok (m, NoCmd)
      end
  | CursorBlinkMsg => Ok (set_blink m (negb (blink m)), NoCmd)
  | OtherMsg => Ok (m, NoCmd)
  end.

Section Rendering.
(** [tea.Invert], the styling of the terminal library. *)
Variable Invert : gostring -> gostring.

Definition cursor (s : gostring) (blink : bool) : gostring :=
  if blink then s else Invert s.

Definition View (m : Model) : result gostring :=
  v <- slice_to (Value m) (pos m) ;;
  v <- (if pos m <? len (Value m) then
          b <- index (Value m) (pos m) ;;
          let v := v ++ cursor (string_of_byte b) (blink m) in
          rest <- slice_from (Value m) (add (pos m) 1) ;;
          Ok (v ++ rest)
        else Ok (v ++ cursor (str " ") (blink m))) ;;
  Ok (Prompt m ++ v).
End Rendering.

(** The invariant of the data model: the caret is an index into the
    value or the position after its last byte. *)
Definition caret_ok (m : Model) : Prop := 0 <= pos m <= len (Value m).

(** What the Go types give: [pos] is an [int], and the length of a
    string, which is held in memory, is below the largest [int]. *)
Definition well_typed (m : Model) : Prop :=
  len (Value m) < int_max /\ is_int (pos m).

Definition is_backspace (msg : Msg) : bool :=
  match msg with
  | Key k =>
      match Type_ k with
      | KeyBackspace | KeyDelete => true
      | _ => false
      end
  | _ => false
  end.

Definition is_move_to_end (msg : Msg) : bool :=
  match msg with
  | Key k => match Type_ k with KeyCtrlE => true | _ => false end
  | _ => false
  end.

(** A [KeyRune] message carries the encoding of a rune, which has at
    least one byte. *)
Definition rune_ok (msg : Msg) : Prop :=
  match msg with
  | Key k => match Type_ k with KeyRune => String_ k <> [] | _ => True end
  | _ => True
  end.

End input.

(** ** Package [viewport]: the pager *)

Module viewport.
Import Go.

(** [Err] holds what [Err.Error()] returns when the error is not nil. *)
Record Model : Type := mkModel {
  Err : option gostring;
  Width : Z;
  Height : Z;
  YOffset : Z;
  YPosition : Z;
  HighPerformanceRendering : bool;
  lines : list gostring
}.

Definition set_Width (m : Model) (w : Z) : Model :=
  mkModel (Err m) w (Height m) (YOffset m) (YPosition m)
          (HighPerformanceRendering m) (lines m).

Definition set_Height (m : Model) (h : Z) : Model :=
  mkModel (Err m) (Width m) h (YOffset m) (YPosition m)
          (HighPerformanceRendering m) (lines m).

Definition set_YOffset (m : Model) (y : Z) : Model :=
  mkModel (Err m) (Width m) (Height m) y (YPosition m)
          (HighPerformanceRendering m) (lines m).

Definition set_YPosition (m : Model) (y : Z) : Model :=
  mkModel (Err m) (Width m) (Height m) (YOffset m) y
          (HighPerformanceRendering m) (lines m).

Definition set_lines (m : Model) (ls : list gostring) : Model :=
  mkModel (Err m) (Width m) (Height m) (YOffset m) (YPosition m)
          (HighPerformanceRendering m) ls.

Definition NewModel (width height : Z) : Model :=
  mkModel None width height 0 0 false [].

(** A method call [x.f(...)] seen from the caller: what the variable
    [x] holds once the call has returned.  With a pointer receiver
    ([func (m *Model) f]) the body assigns to [x] itself; with a value
    receiver ([func (m Model) f]) it assigns to a copy, which is
    dropped when the method returns. *)
Inductive receiver : Type := ByPointer | ByValue.

Definition call (r : receiver) (body : Model -> Model) (x : Model) : Model :=
  match r with
  | ByPointer => body x
  | ByValue => let _copy := body x in x
  end.

Definition min (a b : Z) : Z := if a <? b then a else b.
Definition max (a b : Z) : Z := if a >? b then a else b.

(** The assignments of [SetSize], on the model they are run on. *)
Definition SetSize_body (yPos width height : Z) (m : Model) : Model :=
  let m := set_YPosition m yPos in
  let m := set_Width m width in
  let m := set_Height m height in
  m.

(** [func (m Model) SetSize(yPos int, width, height int)] *)
Definition SetSize (m : Model) (yPos width height : Z) : Model :=
  call ByValue (SetSize_body yPos width height) m.

Definition AtTop (m : Model) : bool := YOffset m <=? 0.

Definition AtBottom (m : Model) : bool :=
  YOffset m >=? sub (sub (len (lines m)) (Height m)) 1.

Definition SetContent_body (s : gostring) (m : Model) : Model :=
  let s := Replace s [CR; LF] [LF] (-1) in
  set_lines m (Split s [LF]).

(** [func (m *Model) SetContent(s string)] *)
Definition SetContent (m : Model) (s : gostring) : Model :=
  call ByPointer (SetContent_body s) m.

Definition ViewDown_body (m : Model) : Model :=
  if AtBottom m then m
  else set_YOffset m (min (add (YOffset m) (Height m))
                          (sub (len (lines m)) (Height m))).

(** [func (m *Model) ViewDown()] *)
Definition ViewDown (m : Model) : Model := call ByPointer ViewDown_body m.

Definition ViewUp_body (m : Model) : Model :=
  if AtTop m then m
  else set_YOffset m (max (sub (YOffset m) (Height m)) 0).

(** [func (m *Model) ViewUp()] *)
Definition ViewUp (m : Model) : Model := call ByPointer ViewUp_body m.

(** [func View(m Model) string] *)
Definition View (m : Model) : result gostring :=
  if HighPerformanceRendering m then Repeat [LF] (sub (Height m) 1)
  else
    match Err m with
    | Some message => Ok message
    | None =>
        visible <- (if len (lines m) >? 0 then
                      let top := max 0 (YOffset m) in
                      let bottom := min (len (lines m))
                                        (add (YOffset m) (Height m)) in
                      slice (lines m) top bottom
                    else Ok []) ;;
        extraLines <- (if len visible <? Height m
                       then Repeat [LF] (sub (Height m) (len visible))
                       else Ok []) ;;
        Ok (Join visible [LF] ++ extraLines)
    end.

(** What the Go types give: every field is an [int] and so is the
    number of lines. *)
Definition well_typed (m : Model) : Prop :=
  is_int (Width m) /\ is_int (Height m) /\ is_int (YOffset m) /\
  is_int (YPosition m) /\ len (lines m) <= int_max.

(** The invariant of the data model on the scroll offset. *)
Definition offset_ok (m : Model) : Prop :=
  0 <= YOffset m <= Z.max 0 (len (lines m) - Height m).

(** The lines of a text, read off the text in one pass: a line ends at
    a line feed, and a carriage return right before a line feed belongs
    to the line ending, not to the line.  This is the description's
    account of [SetContent], to be compared with the two library calls
    of the code. *)
Fixpoint text_lines (s : gostring) : list gostring :=
  match s with
  | [] => [[]]
  | c :: s' =>
      if Ascii.eqb c LF then [] :: text_lines s'
      else if Ascii.eqb c CR && has_prefix s' [LF] then text_lines s'
      else cons_head c (text_lines s')
  end.

Definition clamp (val low high : Z) : Z := max low (min high val).

Definition HalfViewDown_body (m : Model) : Model :=
  if AtBottom m then m
  else set_YOffset m (min (add (YOffset m) (Z.quot (Height m) 2))
                          (sub (len (lines m)) (Height m))).

(** [func (m *Model) HalfViewDown()]; the division of Go truncates. *)
Definition HalfViewDown (m : Model) : Model :=
  call ByPointer HalfViewDown_body m.

Definition HalfViewUp_body (m : Model) : Model :=
  if AtTop m then m
  else set_YOffset m (max (sub (YOffset m) (Z.quot (Height m) 2)) 0).

(** [func (m *Model) HalfViewUp()] *)
Definition HalfViewUp (m : Model) : Model :=
  call ByPointer HalfViewUp_body m.

Definition LineDown_body (n : Z) (m : Model) : Model :=
  if AtBottom m || (n =? 0) then m
  else set_YOffset m (min (add (YOffset m) n)
                          (sub (len (lines m)) (Height m))).

(** [func (m *Model) LineDown(n int)] *)
Definition LineDown (m : Model) (n : Z) : Model :=
  call ByPointer (LineDown_body n) m.

Definition LineUp_body (n : Z) (m : Model) : Model :=
  if AtTop m || (n =? 0) then m
  else set_YOffset m (max (sub (YOffset m) n) 0).

(** [func (m *Model) LineUp(n int)] *)
Definition LineUp (m : Model) (n : Z) : Model :=
  call ByPointer (LineUp_body n) m.

(** [tea.Cmd] as the viewport builds it: [nil], or the call of the
    terminal library that the command stands for, with its arguments. *)
Inductive Cmd : Type :=
| NoCmd
| SyncScrollArea (ls : list gostring) (topBoundary bottomBoundary : Z)
| ScrollDown (ls : list gostring) (topBoundary bottomBoundary : Z)
| ScrollUp (ls : list gostring) (topBoundary bottomBoundary : Z).

(** The command functions [Sync(m)], [ViewDown(m)], ..., which share
    their names with the methods. *)
Module Cmds.

Definition Sync (m : Model) : result Cmd :=
  let top := max (YOffset m) 0 in
  let bottom := min (add (YOffset m) (Height m)) (sub (len (lines m)) 1) in
  ls <- slice (lines m) top bottom ;;
  Ok (SyncScrollArea ls (YPosition m) (add (YPosition m) (Height m))).

Definition ViewDown (m : Model) : result Cmd :=
  if AtBottom m then Ok NoCmd
  else
    let top := max (add (YOffset m) (Height m)) 0 in
    let bottom := min (add top (Height m)) (sub (len (lines m)) 1) in
    ls <- slice (lines m) top bottom ;;
    Ok (ScrollDown ls (YPosition m) (add (YPosition m) (Height m))).

Definition ViewUp (m : Model) : result Cmd :=
  if AtTop m then Ok NoCmd
  else
    let top := max (sub (YOffset m) (Height m)) 0 in
    let bottom := min (YOffset m) (sub (len (lines m)) 1) in
    ls <- slice (lines m) top bottom ;;
    Ok (ScrollUp ls (YPosition m) (add (YPosition m) (Height m))).

Definition HalfViewDown (m : Model) : result Cmd :=
  if AtBottom m then Ok NoCmd
  else
    let top := max (add (YOffset m) (Z.quot (Height m) 2)) 0 in
    let bottom := min (add top (Height m)) (sub (len (lines m)) 1) in
    ls <- slice (lines m) top bottom ;;
    Ok (ScrollDown ls (YPosition m) (add (YPosition m) (Height m))).

Definition HalfViewUp (m : Model) : result Cmd :=
  if AtTop m then Ok NoCmd
  else
    let top := max (sub (YOffset m) (Z.quot (Height m) 2)) 0 in
    let bottom := clamp (YOffset m) top (sub (len (lines m)) 1) in
    ls <- slice (lines m) top bottom ;;
    Ok (ScrollUp ls (YPosition m) (add (YPosition m) (Height m))).

Definition LineDown (m : Model) (n : Z) : result Cmd :=
  if AtBottom m || (n =? 0) then Ok NoCmd
  else
    let bottom := min (add (add (YOffset m) (Height m)) n)
                      (sub (len (lines m)) 1) in
    let top := max (sub bottom n) 0 in
    ls <- slice (lines m) top bottom ;;
    Ok (ScrollDown ls (YPosition m) (add (YPosition m) (Height m))).

Definition LineUp (m : Model) (n : Z) : result Cmd :=
  if AtTop m || (n =? 0) then Ok NoCmd
  else
    let top := max (sub (YOffset m) n) 0 in
    let bottom := min (add top n) (sub (len (lines m)) 1) in
    ls <- slice (lines m) top bottom ;;
    Ok (ScrollUp ls (YPosition m) (add (YPosition m) (Height m))).

End Cmds.

(** A message: a key message, with what its [String()] returns, or any
    other message. *)
Inductive Msg : Type :=
| KeyMsg (s : gostring)
| OtherMsg.

(** [func Update(msg tea.Msg, m Model) (Model, tea.Cmd)] *)
Definition Update (msg : Msg) (m : Model) : result (Model * Cmd) :=
  match msg with
  | KeyMsg s =>
      if is_key s "pgdown" || is_key s " " || is_key s "f" then
        cmd <- (if HighPerformanceRendering m then Cmds.ViewDown m
                else Ok NoCmd) ;;
        Ok (ViewDown m, cmd)
      else if is_key s "pgup" || is_key s "b" then
        cmd <- (if HighPerformanceRendering m then Cmds.ViewUp m
                else Ok NoCmd) ;;
        Ok (ViewUp m, cmd)
      else if is_key s "d" then
        cmd <- (if HighPerformanceRendering m then Cmds.HalfViewDown m
                else Ok NoCmd) ;;
        Ok (HalfViewDown m, cmd)
      else if is_key s "u" then
        cmd <- (if HighPerformanceRendering m then Cmds.HalfViewUp m
                else Ok NoCmd) ;;
        Ok (HalfViewUp m, cmd)
      else if is_key s "down" || is_key s "j" then
        cmd <- (if HighPerformanceRendering m then Cmds.LineDown m 1
                else Ok NoCmd) ;;
        Ok (LineDown m 1, cmd)
      else if is_key s "up" || is_key s "k" then
        cmd <- (if HighPerformanceRendering m then Cmds.LineUp m 1
                else Ok NoCmd) ;;
        Ok (LineUp m 1, cmd)
      else Ok (m, NoCmd)
  | OtherMsg => Ok (m, NoCmd)
  end.

(** The rows of the content that [View] shows from the offset on. *)
Definition visible (m : Model) : result (list gostring) :=
  if len (lines m) >? 0 then
    slice (lines m) (max 0 (YOffset m))
          (min (len (lines m)) (add (YOffset m) (Height m)))
  else Ok [].

(** The conditions under which the command functions are run without a
    panic: the invariant, a height of at least one row, and a content
    and a height whose sum is an [int]. *)
Definition scrollable (m : Model) : Prop :=
  well_typed m /\ 1 <= Height m /\ offset_ok m /\
  len (lines m) + Height m <= int_max.


End viewport.

(** ** Package [main]: the form of three text inputs and a button *)

Module main.
Import Go.

(** The text input that the form is built from (package [textinput]),
    as far as the form uses it: a model with its [Focus] and [Blur]
    methods and its [Prompt] and [TextColor] fields.  [Other] are the
    messages that are not key messages. *)
Record Widget : Type := mkWidget {
  InputModel : Type;
  Other : Type;
  Focus : InputModel -> InputModel;
  Blur : InputModel -> InputModel;
  set_Prompt : InputModel -> gostring -> InputModel;
  set_TextColor : InputModel -> gostring -> InputModel
}.

(** The strings that the terminal styling library computes. *)
Record Theme : Type := mkTheme {
  focusedPrompt : gostring;
  focusedSubmitButton : gostring;
  blurredSubmitButton : gostring
}.

Definition focusedText : gostring := str "205".
Definition blurredPrompt : gostring := str "> ".

Section Form.
Variable W : Widget.
Variable T : Theme.

Inductive Msg : Type :=
| KeyMsg (s : gostring)
| OtherMsg (o : Other W).

(** [input.Update] of that package, its command dropped; it may
    panic. *)
Variable input_Update : Msg -> InputModel W -> result (InputModel W).

Record Model : Type := mkModel {
  index : Z;
  nameInput : InputModel W;
  nickNameInput : InputModel W;
  emailInput : InputModel W;
  submitButton : gostring
}.

Definition set_index (m : Model) (i : Z) : Model :=
  mkModel i (nameInput m) (nickNameInput m) (emailInput m) (submitButton m).

Definition set_inputs (m : Model) (a b c : InputModel W) : Model :=
  mkModel (index m) a b c (submitButton m).

Definition set_submitButton (m : Model) (s : gostring) : Model :=
  mkModel (index m) (nameInput m) (nickNameInput m) (emailInput m) s.

Inductive Cmd : Type := NoCmd | Quit.

(** [func updateInputs(msg tea.Msg, m Model) Model] *)
Definition updateInputs (msg : Msg) (m : Model) : result Model :=
  a <- input_Update msg (nameInput m) ;;
  b <- input_Update msg (nickNameInput m) ;;
  c <- input_Update msg (emailInput m) ;;
  Ok (set_inputs m a b c).

(** The loop over [inputs], from the position [i] on. *)
Fixpoint restyle (i : Z) (focused : Z) (inputs : list (InputModel W))
  : list (InputModel W) :=
  match inputs with
  | [] => []
  | x :: rest =>
      (if i =? focused
       then set_TextColor W (set_Prompt W (Focus W x) (focusedPrompt T))
                          focusedText
       else set_TextColor W (set_Prompt W (Blur W x) blurredPrompt) [])
      :: restyle (add i 1) focused rest
  end.

(** [func update(msg tea.Msg, model tea.Model) (tea.Model, tea.Cmd)],
    on a model of the form: the type assertion it starts with holds. *)
Definition update (msg : Msg) (m : Model) : result (Model * Cmd) :=
  match msg with
  | KeyMsg s =>
      if is_key s "ctrl+c" then Ok (m, Quit)
      else if is_key s "tab" || is_key s "shift+tab" || is_key s "enter"
              || is_key s "up" || is_key s "down" then
        let inputs := [nameInput m; nickNameInput m; emailInput m] in
        if is_key s "enter" && (index m =? len inputs) then Ok (m, Quit)
        else
          let m := if is_key s "up" || is_key s "shift+tab"
                   then set_index m (sub (index m) 1)
                   else set_index m (add (index m) 1) in
          let m := if index m >? len inputs then set_index m 0
                   else if index m <? 0 then set_index m (len inputs)
                        else m in
          let inputs := restyle 0 (index m) inputs in
          a <- Go.index inputs 0 ;;
          b <- Go.index inputs 1 ;;
          c <- Go.index inputs 2 ;;
          let m := set_inputs m a b c in
          let m := if index m =? len inputs
                   then set_submitButton m (focusedSubmitButton T)
                   else set_submitButton m (blurredSubmitButton T) in
          Ok (m, NoCmd)
      else
        m <- updateInputs msg m ;;
        Ok (m, NoCmd)
  | OtherMsg _ =>
      m <- updateInputs msg m ;;
      Ok (m, NoCmd)
  end.

(** [n] presses of the key [s], one after the other, the commands
    dropped. *)
Fixpoint presses (n : nat) (s : gostring) (m : Model) : result Model :=
  match n with
  | O => Ok m
  | S k => r <- update (KeyMsg s) m ;; presses k s (fst r)
  end.

End Form.

(** Whether a key moves the focus of the form. *)
Definition moves_focus (s : gostring) : bool :=
  is_key s "tab" || is_key s "shift+tab" || is_key s "enter"
  || is_key s "up" || is_key s "down".

(** The keys that move the focus by one position whatever it is on:
    tab and down forwards, shift+tab and up backwards. *)
Definition steps_focus (s : gostring) : Prop :=
  is_key s "ctrl+c" = false /\ moves_focus s = true /\
  is_key s "enter" = false.

Definition steps_back (s : gostring) : bool :=
  is_key s "up" || is_key s "shift+tab".

End main.

(** ** Concrete states used in the examples *)

Module Samples.
Import Go.

(** A key press of type [t]; [s] is what its [String()] returns. *)
Definition press (t : input.KeyType) (s : string) : input.Msg :=
  input.Key (input.mkKey t (str s)).

(** The default text field holding [value] with the caret at [caret]. *)
Definition field (value : string) (caret : Z) : input.Model :=
  input.set_pos (input.set_Value input.DefaultModel (str value)) caret.

(** A stand-in for [tea.Invert] that brackets the text. *)
Definition bracket (s : gostring) : gostring := str "[" ++ s ++ str "]".

(** A viewport of [height] rows over [n] one-letter lines, scrolled to
    [offset]. *)
Definition pager (n : nat) (height offset : Z) : viewport.Model :=
  viewport.set_YOffset
    (viewport.set_lines (viewport.NewModel 80 height) (List.repeat (str "l") n))
    offset.

(** The same viewport in high performance rendering. *)
Definition fast_pager (n : nat) (height offset : Z) : viewport.Model :=
  viewport.mkModel None 80 height offset 0 true (List.repeat (str "l") n).

(** A viewport of three rows that holds the load error "boom". *)
Definition failed (highPerformance : bool) : viewport.Model :=
  viewport.mkModel (Some (str "boom")) 80 3 0 0 highPerformance
                   [str "one"; str "two"].

(** A text input reduced to its focus flag, prompt and text colour,
    whose update does nothing, and a theme for it. *)
Definition flag_widget : main.Widget :=
  main.mkWidget (bool * gostring * gostring) unit
    (fun x => (true, snd (fst x), snd x))
    (fun x => (false, snd (fst x), snd x))
    (fun x p => (fst (fst x), p, snd x))
    (fun x c => (fst x, c)).

Definition theme : main.Theme :=
  main.mkTheme (str "* ") (str "[*Submit*]") (str "[ Submit ]").

Definition idle (msg : main.Msg flag_widget) (x : main.InputModel flag_widget)
  : result (main.InputModel flag_widget) := Ok x.

(** The form after a key has moved the focus to the first input. *)
Definition form_on_name : main.Model flag_widget :=
  main.mkModel flag_widget 0 (true, str "* ", str "205")
               (false, str "> ", []) (false, str "> ", [])
               (str "[ Submit ]").

(** The form with the focus on the position [i]. *)
Definition form (i : Z) : main.Model flag_widget :=
  main.mkModel flag_widget i (false, [], []) (false, [], []) (false, [], [])
               (str "[ Submit ]").

(** The text "a\r\nb\r\nc". *)
Definition abc_crlf : gostring :=
  str "a" ++ [CR; LF] ++ str "b" ++ [CR; LF] ++ str "c".

End Samples.

(** ** Facts about the runtime model *)

Section GoFacts.
Import Go.

Lemma wrap_id (z : Z) : is_int z -> wrap z = z.
Proof.
  unfold is_int, wrap, int_min, int_max, int_modulus. intros Hz.
  rewrite Z.mod_small; lia.
Qed.

Lemma wrap_is_int (z : Z) : is_int (wrap z).
Proof.
  unfold is_int, wrap, int_min, int_max, int_modulus.
  pose proof (Z.mod_pos_bound (z - -9223372036854775808) 18446744073709551616).
  lia.
Qed.

Lemma len_nonneg {A : Type} (s : list A) : 0 <= len s.
Proof. unfold len. lia. Qed.

Lemma len_app {A : Type} (s t : list A) : len (s ++ t) = len s + len t.
Proof. unfold len. rewrite length_app. lia. Qed.

Lemma len_nil_iff {A : Type} (s : list A) : len s = 0 <-> s = [].
Proof.
  unfold len. destruct s; simpl; split; intros H; try reflexivity;
    try discriminate; lia.
Qed.

Lemma slice_Ok {A : Type} (s : list A) (lo hi : Z) :
  0 <= lo -> lo <= hi -> hi <= len s ->
  slice s lo hi = Ok (firstn (Z.to_nat (hi - lo)) (skipn (Z.to_nat lo) s)).
Proof.
  intros H0 H1 H2. unfold slice.
  destruct (Z.leb_spec 0 lo); try lia.
  destruct (Z.leb_spec lo hi); try lia.
  destruct (Z.leb_spec hi (len s)); try lia.
  reflexivity.
Qed.

Lemma slice_Panic {A : Type} (s : list A) (lo hi : Z) :
  lo < 0 \/ hi < lo \/ len s < hi ->
  slice s lo hi = Panic SliceBounds.
Proof.
  intros H. unfold slice.
  destruct (Z.leb_spec 0 lo); simpl; try reflexivity.
  destruct (Z.leb_spec lo hi); simpl; try reflexivity.
  destruct (Z.leb_spec hi (len s)); simpl; try reflexivity.
  lia.
Qed.

Lemma slice_len {A : Type} (s r : list A) (lo hi : Z) :
  slice s lo hi = Ok r -> 0 <= lo <= hi /\ hi <= len s /\ len r = hi - lo.
Proof.
  unfold slice.
  destruct (Z.leb_spec 0 lo); simpl; try discriminate.
  destruct (Z.leb_spec lo hi); simpl; try discriminate.
  destruct (Z.leb_spec hi (len s)); simpl; try discriminate.
  intros E. injection E as <-. unfold len in *.
  rewrite length_firstn, length_skipn. lia.
Qed.

Lemma index_Ok {A : Type} (s : list A) (i : Z) :
  0 <= i < len s -> exists a, index s i = Ok a.
Proof.
  intros H. unfold index.
  destruct (Z.leb_spec 0 i); try lia.
  destruct (Z.ltb_spec i (len s)); try lia. simpl.
  destruct (nth_error s (Z.to_nat i)) eqn:E.
  - eexists; reflexivity.
  - apply nth_error_None in E. unfold len in *. lia.
Qed.

End GoFacts.

(** Replaces the [int] operations of the goal by the exact ones wherever
    the context shows that the exact result is an [int]. *)
Ltac exact_int :=
  unfold Go.add, Go.sub;
  repeat match goal with
         | |- context [Go.wrap ?z] =>
             rewrite (wrap_id z)
               by (unfold Go.is_int, Go.int_min, Go.int_max in *; lia)
         end.


(** ** The text field *)

Section TextField.
Import Go input.

(** Under the invariant, the slices that [Update] and [View] take at the
    caret are within bounds. *)
Lemma slice_to_caret (m : Model) :
  caret_ok m -> exists front, slice_to (Value m) (pos m) = Ok front /\
                              len front = pos m.
Proof.
  intros [H0 H1]. unfold slice_to. eexists. split.
  - apply slice_Ok; lia.
  - unfold len in *. rewrite length_firstn, length_skipn. lia.
Qed.

Lemma slice_from_caret (m : Model) (i : Z) :
  0 <= i <= len (Value m) ->
  exists back, slice_from (Value m) i = Ok back /\
               len back = len (Value m) - i.
Proof.
  intros [H0 H1]. unfold slice_from. eexists. split.
  - apply slice_Ok; lia.
  - unfold len in *. rewrite length_firstn, length_skipn. lia.
Qed.

(** Under the invariant [Update] panics on exactly one kind of input:
    backspace or delete with the caret at 0 and a non-empty value. *)
Lemma Update_panics_iff (msg : Msg) (m : Model) :
  well_typed m -> caret_ok m ->
  (is_ok (Update msg m) = false <->
   is_backspace msg = true /\ pos m = 0 /\ Value m <> []).
Proof.
  intros [Hlen Hpos] Hc. pose proof Hc as [Hc0 Hc1].
  pose proof (len_nonneg (Value m)) as Hl.
  unfold is_int, int_min, int_max in *.
  destruct (slice_to_caret m Hc) as (front & Efront & _).
  destruct msg as [[t s] | | ]; simpl;
    [ destruct t; simpl | | ]; unfold Update; simpl;
    try (split; [ discriminate | intros (? & _); discriminate ]).
  - (* KeyBackspace *)
    destruct (Z.gtb_spec (len (Value m)) 0) as [Hpos'|Hzero].
    + exact_int.
      destruct (Z.eq_dec (pos m) 0) as [E|E].
      * unfold slice_to. rewrite slice_Panic by lia. simpl.
        split; [ intros _ | reflexivity ].
        repeat split; try assumption. intros N. rewrite N in Hpos'.
        unfold len in Hpos'; simpl in Hpos'; lia.
      * unfold slice_to. rewrite slice_Ok by lia. simpl.
        destruct (slice_from_caret m (pos m)) as (back & -> & _); [lia|].
        simpl. split; [ discriminate | intros (_ & ? & _); lia ].
    + simpl. split; [ discriminate | ].
      intros (_ & _ & N). exfalso. apply N. apply len_nil_iff. lia.
  - (* KeyDelete *)
    destruct (Z.gtb_spec (len (Value m)) 0) as [Hpos'|Hzero].
    + exact_int.
      destruct (Z.eq_dec (pos m) 0) as [E|E].
      * unfold slice_to. rewrite slice_Panic by lia. simpl.
        split; [ intros _ | reflexivity ].
        repeat split; try assumption. intros N. rewrite N in Hpos'.
        unfold len in Hpos'; simpl in Hpos'; lia.
      * unfold slice_to. rewrite slice_Ok by lia. simpl.
        destruct (slice_from_caret m (pos m)) as (back & -> & _); [lia|].
        simpl. split; [ discriminate | intros (_ & ? & _); lia ].
    + simpl. split; [ discriminate | ].
      intros (_ & _ & N). exfalso. apply N. apply len_nil_iff. lia.
  - (* KeyLeft *)
    destruct (pos m >? 0); simpl; split; try discriminate;
      intros (? & _); discriminate.
  - (* KeyRight *)
    destruct (pos m <? len (Value m)); simpl; split; try discriminate;
      intros (? & _); discriminate.
  - (* KeyCtrlD *)
    destruct (Z.gtb_spec (len (Value m)) 0); simpl;
      [ destruct (Z.ltb_spec (pos m) (len (Value m))); simpl | ];
      try (split; [ discriminate | intros (? & _); discriminate ]).
    rewrite Efront. simpl. exact_int.
    destruct (slice_from_caret m (pos m + 1)) as (back & -> & _); [lia|].
    simpl. split; [ discriminate | intros (? & _); discriminate ].
  - (* KeyCtrlK *)
    rewrite Efront. simpl. split; [ discriminate | intros (? & _); discriminate ].
  - (* KeyRune *)
    rewrite Efront. simpl.
    destruct (slice_from_caret m (pos m)) as (back & -> & _); [lia|].
    simpl. split; [ discriminate | intros (? & _); discriminate ].
Qed.

(** Under the invariant [View] returns. *)
Lemma View_total (Invert : gostring -> gostring) (m : Model) :
  well_typed m -> caret_ok m -> is_ok (View Invert m) = true.
Proof.
  intros [Hlen Hpos] Hc. pose proof Hc as [Hc0 Hc1].
  unfold is_int, int_min, int_max in *.
  destruct (slice_to_caret m Hc) as (front & Efront & _).
  unfold View. rewrite Efront. simpl.
  destruct (Z.ltb_spec (pos m) (len (Value m))) as [Hlt|Hge]; simpl;
    [ | reflexivity ].
  destruct (index_Ok (Value m) (pos m)) as (b & ->); [lia|]. simpl.
  exact_int.
  destruct (slice_from_caret m (pos m + 1)) as (rest & -> & _); [lia|].
  reflexivity.
Qed.

(** Every update that returns keeps the invariant, move-to-end on an
    empty value apart. *)
Lemma Update_keeps_caret_ok (msg : Msg) (m m' : Model) (c : Cmd) :
  well_typed m -> caret_ok m -> rune_ok msg ->
  ~ (is_move_to_end msg = true /\ Value m = []) ->
  Update msg m = Ok (m', c) -> caret_ok m'.
Proof.
  intros [Hlen Hpos] Hc Hrune Hend. pose proof Hc as [Hc0 Hc1].
  pose proof (len_nonneg (Value m)) as Hl.
  unfold is_int, int_min, int_max in *.
  destruct msg as [[t s] | | ]; simpl in *;
    [ destruct t; simpl in * | | ]; unfold Update; simpl;
    try (intros E; injection E as <- _; exact Hc).
  - (* KeyBackspace *)
    destruct (Z.gtb_spec (len (Value m)) 0);
      [ | intros E; injection E as <- _; exact Hc ].
    exact_int.
    destruct (slice_to (Value m) (pos m - 1)) as [front|] eqn:Ef;
      simpl; [ | discriminate ].
    destruct (slice_from (Value m) (pos m)) as [back|] eqn:Eb;
      simpl; [ | discriminate ].
    intros E; injection E as <- _.
    apply slice_len in Ef. apply slice_len in Eb.
    unfold caret_ok; simpl. rewrite len_app. lia.
  - (* KeyDelete *)
    destruct (Z.gtb_spec (len (Value m)) 0);
      [ | intros E; injection E as <- _; exact Hc ].
    exact_int.
    destruct (slice_to (Value m) (pos m - 1)) as [front|] eqn:Ef;
      simpl; [ | discriminate ].
    destruct (slice_from (Value m) (pos m)) as [back|] eqn:Eb;
      simpl; [ | discriminate ].
    intros E; injection E as <- _.
    apply slice_len in Ef. apply slice_len in Eb.
    unfold caret_ok; simpl. rewrite len_app. lia.
  - (* KeyLeft *)
    destruct (Z.gtb_spec (pos m) 0); intros E; injection E as <- _;
      [ | exact Hc ].
    exact_int. unfold caret_ok; simpl. lia.
  - (* KeyRight *)
    destruct (Z.ltb_spec (pos m) (len (Value m))); intros E;
      injection E as <- _; [ | exact Hc ].
    exact_int. unfold caret_ok; simpl. lia.
  - (* KeyCtrlA *)
    intros E; injection E as <- _. unfold caret_ok; simpl. lia.
  - (* KeyCtrlD *)
    destruct (Z.gtb_spec (len (Value m)) 0); simpl;
      [ destruct (Z.ltb_spec (pos m) (len (Value m))); simpl | ];
      try (intros E; injection E as <- _; exact Hc).
    exact_int.
    destruct (slice_to (Value m) (pos m)) as [front|] eqn:Ef;
      simpl; [ | discriminate ].
    destruct (slice_from (Value m) (pos m + 1)) as [back|] eqn:Eb;
      simpl; [ | discriminate ].
    intros E; injection E as <- _.
    apply slice_len in Ef. apply slice_len in Eb.
    unfold caret_ok; simpl. rewrite len_app. lia.
  - (* KeyCtrlE *)
    intros E; injection E as <- _. exact_int.
    unfold caret_ok; simpl.
    assert (len (Value m) <> 0).
    { intros N. apply Hend. split; [ reflexivity | now apply len_nil_iff ]. }
    lia.
  - (* KeyCtrlK *)
    destruct (slice_to (Value m) (pos m)) as [front|] eqn:Ef;
      simpl; [ | discriminate ].
    intros E; injection E as <- _.
    unfold caret_ok; simpl. pose proof (len_nonneg front). lia.
  - (* KeyRune *)
    destruct (slice_to (Value m) (pos m)) as [front|] eqn:Ef;
      simpl; [ | discriminate ].
    destruct (slice_from (Value m) (pos m)) as [back|] eqn:Eb;
      simpl; [ | discriminate ].
    intros E; injection E as <- _. exact_int.
    apply slice_len in Ef. apply slice_len in Eb.
    unfold caret_ok; simpl. rewrite !len_app.
    assert (0 < len s).
    { pose proof (len_nonneg s).
      assert (len s <> 0) by (intros N; apply Hrune; now apply len_nil_iff).
      lia. }
    lia.
Qed.

(** The editing scenarios of the description. *)
Example Update_scenarios :
  Update (Samples.press KeyRune "x") (Samples.field "ab" 1)
    = Ok (Samples.field "axb" 2, NoCmd) /\
  Update (Samples.press KeyCtrlK "ctrl+k") (Samples.field "hello" 2)
    = Ok (Samples.field "he" 2, NoCmd) /\
  Update (Samples.press KeyCtrlD "ctrl+d") (Samples.field "hello world" 5)
    = Ok (Samples.field "helloworld" 5, NoCmd) /\
  Update (Samples.press KeyBackspace "backspace") (Samples.field "ab" 2)
    = Ok (Samples.field "a" 1, NoCmd).
Proof. repeat split; reflexivity. Qed.

(** C1. The description has backspace or delete with the caret at 0 and
    a non-empty value return the state unchanged.  The code guards the
    deletion by [len(m.Value) > 0] only, so that on value "ab" with the
    caret at 0 it evaluates [m.Value[:-1]] and the runtime panics: no
    state is returned, for either key. *)
Theorem Update_backspace_at_caret_0_panics :
  Update (Samples.press KeyBackspace "backspace") (Samples.field "ab" 0)
    = Panic SliceBounds /\
  Update (Samples.press KeyDelete "delete") (Samples.field "ab" 0)
    = Panic SliceBounds.
Proof. split; reflexivity. Qed.

(** C2. The description has update and render total on every state that
    satisfies the invariant.  The state with value "hello" and the caret
    at 0 satisfies the invariant, its rendering returns, and the delete
    key makes [Update] panic on it. *)
Theorem Update_not_total_at_caret_0 :
  well_typed (Samples.field "hello" 0) /\
  caret_ok (Samples.field "hello" 0) /\
  is_ok (View Samples.bracket (Samples.field "hello" 0)) = true /\
  Update (Samples.press KeyDelete "delete") (Samples.field "hello" 0)
    = Panic SliceBounds.
Proof.
  repeat split; try reflexivity; vm_compute; discriminate.
Qed.

(** C3. The description has the invariant [0 <= caret <= len(value)]
    kept by every update.  On the empty value, which satisfies it with
    the caret at 0, move-to-end returns the caret -1; the state returned
    breaks the invariant, and rendering it panics. *)
Theorem Update_move_to_end_on_empty_value :
  caret_ok (Samples.field "" 0) /\
  Update (Samples.press KeyCtrlE "ctrl+e") (Samples.field "" 0)
    = Ok (Samples.field "" (-1), NoCmd) /\
  ~ caret_ok (Samples.field "" (-1)) /\
  View Samples.bracket (Samples.field "" (-1)) = Panic SliceBounds.
Proof.
  repeat split; try reflexivity; try (vm_compute; discriminate).
  intros [H _]. vm_compute in H. apply H. reflexivity.
Qed.

(** C9. On every state, the move-to-end key returns the state with the
    caret set to [len(value) - 1] and the value as it was: one short of
    the end of a non-empty value, and -1 on the empty value. *)
Theorem Update_move_to_end (k : KeyMsg) (m : Model) :
  Type_ k = KeyCtrlE -> len (Value m) <= int_max ->
  let m' := set_pos m (len (Value m) - 1) in
  Update (Key k) m = Ok (m', NoCmd) /\
  pos m' = len (Value m) - 1 /\
  Value m' = Value m.
Proof.
  intros Hk Hlen m'. subst m'. pose proof (len_nonneg (Value m)).
  unfold Update. rewrite Hk. exact_int.
  repeat split; reflexivity.
Qed.

Lemma Update_move_to_end_witness :
  Type_ (mkKey KeyCtrlE (str "ctrl+e")) = KeyCtrlE /\
  len (Value (Samples.field "hello" 2)) <= int_max /\
  Update (Key (mkKey KeyCtrlE (str "ctrl+e"))) (Samples.field "hello" 2)
    = Ok (Samples.field "hello" 4, NoCmd).
Proof.
  split; [ reflexivity | split; [ vm_compute; discriminate | ] ].
  apply (Update_move_to_end (mkKey KeyCtrlE (str "ctrl+e"))
                            (Samples.field "hello" 2));
    [ reflexivity | vm_compute; discriminate ].
Defined.

End TextField.


(** ** The viewport: geometry and paging *)

Section Paging.
Import Go viewport.

Ltac unfold_paging :=
  unfold ViewDown, ViewUp, ViewDown_body, ViewUp_body, call,
         AtBottom, AtTop, min, max in *.

(** On the model it is run on, the body of [SetSize] does assign the
    geometry and keeps the offset. *)
Lemma SetSize_body_assigns (m : Model) (yPos width height : Z) :
  let m' := SetSize_body yPos width height m in
  YPosition m' = yPos /\ Width m' = width /\ Height m' = height /\
  YOffset m' = YOffset m.
Proof. repeat split; reflexivity. Qed.

(** C4. The description has [SetSize] replace the geometry of the model.
    [SetSize] is declared with a value receiver, unlike [SetContent] and
    the navigation methods: its assignments go to a copy, and the model
    of the caller is what it was.  On [NewModel(80, 24)], after
    [SetSize(1, 100, 50)], the position is still 0, the width 80 and the
    height 24. *)
Theorem SetSize_leaves_the_model_unchanged :
  (forall (m : Model) (yPos width height : Z),
      SetSize m yPos width height = m) /\
  YPosition (SetSize (NewModel 80 24) 1 100 50) = 0 /\
  Width (SetSize (NewModel 80 24) 1 100 50) = 80 /\
  Height (SetSize (NewModel 80 24) 1 100 50) = 24.
Proof. repeat split; reflexivity. Qed.

(** Twenty-five lines in ten rows: paging down goes from 0 to 10, then
    to 15, and stays there. *)
Example ViewDown_scenario :
  YOffset (ViewDown (Samples.pager 25 10 0)) = 10 /\
  YOffset (ViewDown (Samples.pager 25 10 10)) = 15 /\
  AtBottom (Samples.pager 25 10 15) = true /\
  YOffset (ViewDown (Samples.pager 25 10 15)) = 15.
Proof. repeat split; reflexivity. Qed.

(** With a negative height, which the type allows, paging down moves the
    offset backwards. *)
Lemma ViewDown_negative_height :
  offset_ok (Samples.pager 5 (-1) 0) /\
  YOffset (ViewDown (Samples.pager 5 (-1) 0)) = -1.
Proof. split; [ vm_compute; split; discriminate | reflexivity ]. Qed.

(** C5, as stated, fails on a viewport that is taller than its content:
    three lines in ten rows, offset 0.  The invariant holds, paging down
    changes nothing, and the offset 0 is above [len(lines) - height],
    which is -7. *)
Lemma ViewDown_short_content_counterexample :
  well_typed (Samples.pager 3 10 0) /\
  offset_ok (Samples.pager 3 10 0) /\
  ~ (YOffset (ViewDown (Samples.pager 3 10 0))
     <= len (lines (Samples.pager 3 10 0)) - Height (Samples.pager 3 10 0)).
Proof.
  split; [ | split ].
  - unfold well_typed, is_int. vm_compute.
    repeat split; discriminate.
  - vm_compute. split; discriminate.
  - vm_compute. intros H. apply H. reflexivity.
Qed.

(** C5. For every state with a non-negative height that satisfies the
    invariant, after [ViewDown] the offset is at most
    [max(0, len(lines) - height)], hence at most [len(lines) - height]
    when the content has at least [height] lines; it is not below the
    previous offset; and at the bottom a second [ViewDown] yields the
    offset of the first. *)
Theorem ViewDown_offset_bounds (m : Model) :
  well_typed m -> 0 <= Height m -> offset_ok m ->
  YOffset (ViewDown m) <= Z.max 0 (len (lines m) - Height m) /\
  (Height m <= len (lines m) ->
   YOffset (ViewDown m) <= len (lines m) - Height m) /\
  YOffset m <= YOffset (ViewDown m) /\
  (AtBottom m = true ->
   YOffset (ViewDown (ViewDown m)) = YOffset (ViewDown m)).
Proof.
  intros (Hw & Hh & Ho & Hy & Hl) Hh0 [Ho0 Ho1].
  pose proof (len_nonneg (lines m)) as Hn.
  assert (Eb : sub (sub (len (lines m)) (Height m)) 1
               = len (lines m) - Height m - 1) by (exact_int; reflexivity).
  unfold_paging. rewrite Eb.
  destruct (Z.geb_spec (YOffset m) (len (lines m) - Height m - 1))
    as [Hbot|Hmid].
  - (* at the bottom: nothing changes *)
    cbv iota. rewrite Eb.
    destruct (Z.geb_spec (YOffset m) (len (lines m) - Height m - 1));
      [ | lia ].
    repeat split; lia.
  - (* below the bottom: the target or the fallback *)
    exact_int.
    destruct (Z.ltb_spec (YOffset m + Height m) (len (lines m) - Height m));
      simpl; repeat split; try lia; discriminate.
Qed.

Lemma ViewDown_offset_bounds_witness :
  well_typed (Samples.pager 25 10 10) /\
  0 <= Height (Samples.pager 25 10 10) /\
  offset_ok (Samples.pager 25 10 10) /\
  YOffset (ViewDown (Samples.pager 25 10 10))
    <= Z.max 0 (len (lines (Samples.pager 25 10 10))
                - Height (Samples.pager 25 10 10)) /\
  (Height (Samples.pager 25 10 10) <= len (lines (Samples.pager 25 10 10)) ->
   YOffset (ViewDown (Samples.pager 25 10 10))
     <= len (lines (Samples.pager 25 10 10))
        - Height (Samples.pager 25 10 10)) /\
  YOffset (Samples.pager 25 10 10)
    <= YOffset (ViewDown (Samples.pager 25 10 10)) /\
  (AtBottom (Samples.pager 25 10 10) = true ->
   YOffset (ViewDown (ViewDown (Samples.pager 25 10 10)))
     = YOffset (ViewDown (Samples.pager 25 10 10))).
Proof.
  assert (W : well_typed (Samples.pager 25 10 10)).
  { unfold well_typed, is_int. vm_compute. repeat split; discriminate. }
  assert (H : 0 <= Height (Samples.pager 25 10 10))
    by (vm_compute; discriminate).
  assert (O : offset_ok (Samples.pager 25 10 10))
    by (vm_compute; split; discriminate).
  split; [ exact W | split; [ exact H | split; [ exact O | ] ] ].
  apply (ViewDown_offset_bounds (Samples.pager 25 10 10) W H O).
Defined.

(** Page up and then page down from an offset that is neither at the
    top nor at the bottom: the offset comes back exactly when page up was
    not cut off at 0. *)
Lemma ViewUp_ViewDown_offset (m : Model) :
  well_typed m -> 0 <= Height m ->
  AtTop m = false -> AtBottom m = false ->
  YOffset (ViewDown (ViewUp m))
  = if Height m <=? YOffset m then YOffset m
    else min (Height m) (len (lines m) - Height m).
Proof.
  intros (Hw & Hh & Ho & Hy & Hl) Hh0 Htop Hbot.
  pose proof (len_nonneg (lines m)) as Hn.
  assert (Eb : sub (sub (len (lines m)) (Height m)) 1
               = len (lines m) - Height m - 1) by (exact_int; reflexivity).
  assert (Er : sub (len (lines m)) (Height m) = len (lines m) - Height m)
    by (exact_int; reflexivity).
  unfold_paging. rewrite Eb in Hbot. rewrite Htop.
  apply Z.leb_gt in Htop. rewrite Z.geb_leb in Hbot. apply Z.leb_gt in Hbot.
  assert (Eu : sub (YOffset m) (Height m) = YOffset m - Height m)
    by (exact_int; reflexivity).
  rewrite Eu. simpl.
  destruct (Z.gtb_spec (YOffset m - Height m) 0) as [Hfar|Hnear]; simpl.
  - rewrite Eb, Er.
    destruct (Z.geb_spec (YOffset m - Height m)
                         (len (lines m) - Height m - 1)); [ lia | ].
    simpl. exact_int.
    replace (YOffset m - Height m + Height m) with (YOffset m) by lia.
    destruct (Z.ltb_spec (YOffset m) (len (lines m) - Height m)); [ | lia ].
    destruct (Z.leb_spec (Height m) (YOffset m)); [ reflexivity | lia ].
  - rewrite Eb, Er.
    destruct (Z.geb_spec 0 (len (lines m) - Height m - 1)); [ lia | ].
    simpl. exact_int. rewrite Z.add_0_l.
    destruct (Z.leb_spec (Height m) (YOffset m)) as [Hle|Hlt].
    + assert (Height m = YOffset m) by lia.
      destruct (Z.ltb_spec (Height m) (len (lines m) - Height m)); lia.
    + reflexivity.
Qed.

(** C6, as stated, fails at an offset below the height: thirty lines in
    ten rows (the height divides the scrollable range 20), offset 5,
    neither at the top nor at the bottom.  Page up is cut off at 0, and
    page down then lands on 10. *)
Lemma ViewUp_ViewDown_roundtrip_counterexample :
  AtTop (Samples.pager 30 10 5) = false /\
  AtBottom (Samples.pager 30 10 5) = false /\
  (Height (Samples.pager 30 10 5)
   | len (lines (Samples.pager 30 10 5)) - Height (Samples.pager 30 10 5)) /\
  offset_ok (Samples.pager 30 10 5) /\
  YOffset (ViewDown (ViewUp (Samples.pager 30 10 5))) = 10 /\
  YOffset (ViewDown (ViewUp (Samples.pager 30 10 5)))
    <> YOffset (Samples.pager 30 10 5).
Proof.
  repeat split; try reflexivity; try (vm_compute; discriminate).
  exists 2. reflexivity.
Qed.

(** C6. For every state with a non-negative height, at an offset that is
    neither at the top nor at the bottom, and where the height divides
    the scrollable range [len(lines) - height]: [ViewUp] and then
    [ViewDown] bring the offset back to its value exactly when that value
    is at least the height. *)
Theorem ViewUp_ViewDown_roundtrip (m : Model) :
  well_typed m -> 0 <= Height m ->
  AtTop m = false -> AtBottom m = false ->
  (Height m | len (lines m) - Height m) ->
  (YOffset (ViewDown (ViewUp m)) = YOffset m <-> Height m <= YOffset m).
Proof.
  intros Hw Hh Htop Hbot _.
  rewrite (ViewUp_ViewDown_offset m Hw Hh Htop Hbot).
  destruct Hw as (_ & Hh' & _ & _ & Hl).
  pose proof (len_nonneg (lines m)) as Hn.
  assert (Eb : sub (sub (len (lines m)) (Height m)) 1
               = len (lines m) - Height m - 1) by (exact_int; reflexivity).
  unfold AtBottom in Hbot. rewrite Eb, Z.geb_leb in Hbot.
  apply Z.leb_gt in Hbot. unfold min.
  destruct (Z.leb_spec (Height m) (YOffset m)); [ split; intros; lia | ].
  destruct (Z.ltb_spec (Height m) (len (lines m) - Height m));
    split; intros; lia.
Qed.

Lemma ViewUp_ViewDown_roundtrip_witness :
  well_typed (Samples.pager 30 10 15) /\
  0 <= Height (Samples.pager 30 10 15) /\
  AtTop (Samples.pager 30 10 15) = false /\
  AtBottom (Samples.pager 30 10 15) = false /\
  (Height (Samples.pager 30 10 15)
   | len (lines (Samples.pager 30 10 15))
     - Height (Samples.pager 30 10 15)) /\
  (YOffset (ViewDown (ViewUp (Samples.pager 30 10 15)))
     = YOffset (Samples.pager 30 10 15)
   <-> Height (Samples.pager 30 10 15) <= YOffset (Samples.pager 30 10 15)).
Proof.
  assert (W : well_typed (Samples.pager 30 10 15)).
  { unfold well_typed, is_int. vm_compute. repeat split; discriminate. }
  assert (H : 0 <= Height (Samples.pager 30 10 15))
    by (vm_compute; discriminate).
  assert (D : (Height (Samples.pager 30 10 15)
               | len (lines (Samples.pager 30 10 15))
                 - Height (Samples.pager 30 10 15)))
    by (exists 2; reflexivity).
  split; [ exact W | split; [ exact H | ] ].
  split; [ reflexivity | split; [ reflexivity | split; [ exact D | ] ] ].
  apply (ViewUp_ViewDown_roundtrip (Samples.pager 30 10 15) W H
                                   eq_refl eq_refl D).
Defined.

(** With a negative height the round trip fails also at an offset that
    is not below the height. *)
Lemma ViewUp_ViewDown_negative_height :
  AtTop (Samples.pager 3 (-1) 2) = false /\
  AtBottom (Samples.pager 3 (-1) 2) = false /\
  YOffset (ViewDown (ViewUp (Samples.pager 3 (-1) 2))) = 3.
Proof. repeat split; reflexivity. Qed.

End Paging.


(** ** The viewport: content and rendering *)

Section Content.
Import Go viewport.

(** C7, as stated, fails in high performance rendering: [View] tests
    [HighPerformanceRendering] before [Err] and returns the placeholder
    of [Height - 1] line feeds, not the message of the stored error. *)
Lemma View_error_hidden_by_high_performance :
  Err (Samples.failed true) = Some (str "boom") /\
  View (Samples.failed true) = Ok [LF; LF] /\
  View (Samples.failed true) <> Ok (str "boom").
Proof. repeat split; try reflexivity. vm_compute. discriminate. Qed.

(** C7. Whenever the viewport holds a stored error and high performance
    rendering is off, [View] returns the message of the stored error,
    whatever the lines, the offset and the geometry are. *)
Theorem View_renders_stored_error (m : Model) (message : gostring) :
  HighPerformanceRendering m = false -> Err m = Some message ->
  View m = Ok message.
Proof.
  intros Hhp Herr. unfold View. rewrite Hhp, Herr. reflexivity.
Qed.

Lemma View_renders_stored_error_witness :
  HighPerformanceRendering (Samples.failed false) = false /\
  Err (Samples.failed false) = Some (str "boom") /\
  View (Samples.failed false) = Ok (str "boom").
Proof.
  split; [ reflexivity | split; [ reflexivity | ] ].
  apply (View_renders_stored_error (Samples.failed false) (str "boom"));
    reflexivity.
Defined.

(** [strings.Split] on the line feed, one byte at a time. *)
Lemma split_LF_cons (c : ascii) (s : gostring) :
  Split (c :: s) [LF]
  = if Ascii.eqb c LF then [] :: Split s [LF] else cons_head c (Split s [LF]).
Proof.
  unfold Split. cbn [split_from has_prefix List.length Nat.pred].
  rewrite Ascii.eqb_sym, andb_true_r. reflexivity.
Qed.

(** [strings.Replace] of CR LF by LF, one byte at a time. *)
Lemma replace_CRLF_cons (c : ascii) (s : gostring) :
  Replace (c :: s) [CR; LF] [LF] (-1)
  = match s with
    | c' :: s' =>
        if Ascii.eqb c CR && Ascii.eqb c' LF
        then LF :: Replace s' [CR; LF] [LF] (-1)
        else c :: Replace s [CR; LF] [LF] (-1)
    | [] => [c]
    end.
Proof.
  unfold Replace.
  cbn [replace_from has_prefix List.length Nat.pred negb Z.eqb Z.ltb
       Z.compare andb app].
  rewrite (Ascii.eqb_sym CR c).
  destruct s as [|c' s']; cbn [replace_from].
  - rewrite andb_false_r. reflexivity.
  - rewrite (Ascii.eqb_sym LF c'), andb_true_r.
    destruct (Ascii.eqb c CR && Ascii.eqb c' LF); reflexivity.
Qed.

Lemma text_lines_cons (c : ascii) (s : gostring) :
  text_lines (c :: s)
  = if Ascii.eqb c LF then [] :: text_lines s
    else if Ascii.eqb c CR && has_prefix s [LF] then text_lines s
         else cons_head c (text_lines s).
Proof. reflexivity. Qed.

Lemma has_prefix_LF (c : ascii) (s : gostring) :
  has_prefix (c :: s) [LF] = Ascii.eqb c LF.
Proof.
  cbn [has_prefix]. rewrite Ascii.eqb_sym. apply andb_true_r.
Qed.

(** The two library calls of [SetContent] compute the lines of the
    text. *)
Lemma Split_Replace_text_lines (s : gostring) :
  Split (Replace s [CR; LF] [LF] (-1)) [LF] = text_lines s.
Proof.
  assert (P : forall (n : nat) (t : gostring),
             (List.length t <= n)%nat ->
             Split (Replace t [CR; LF] [LF] (-1)) [LF] = text_lines t).
  { induction n as [|n IH]; intros t Hn.
    - destruct t; [ reflexivity | cbn [List.length] in Hn; lia ].
    - destruct t as [|c t]; [ reflexivity | ].
      cbn [List.length] in Hn.
      rewrite replace_CRLF_cons, text_lines_cons.
      destruct t as [|c' t'].
      + rewrite split_LF_cons. cbn [has_prefix]. rewrite andb_false_r.
        reflexivity.
      + rewrite has_prefix_LF.
        destruct (Ascii.eqb c CR && Ascii.eqb c' LF) eqn:E.
        * apply andb_true_iff in E. destruct E as [Ec Ec'].
          apply Ascii.eqb_eq in Ec. apply Ascii.eqb_eq in Ec'. subst c c'.
          rewrite split_LF_cons, text_lines_cons, Ascii.eqb_refl.
          change (Ascii.eqb CR LF) with false. cbv iota.
          rewrite IH by (cbn [List.length] in Hn; lia). reflexivity.
        * rewrite split_LF_cons.
          rewrite IH by (cbn [List.length] in *; lia). reflexivity. }
  apply (P (List.length s)). lia.
Qed.

(** [strings.Split] returns at least one substring, whatever the
    separator. *)
Lemma split_from_nonempty (sep : gostring) (s : gostring) (skip : nat) :
  split_from sep skip s <> [].
Proof.
  revert skip. induction s as [|c s IH]; intros skip.
  - discriminate.
  - cbn [split_from]. destruct skip as [|k]; [ | apply IH ].
    destruct (has_prefix (c :: s) sep); [ discriminate | ].
    destruct (split_from sep 0 s); discriminate.
Qed.

Lemma Forall_cons_head (c : ascii) (ls : list gostring) :
  c <> LF -> Forall (fun l => ~ In LF l) ls ->
  Forall (fun l => ~ In LF l) (cons_head c ls).
Proof.
  intros Hc H. destruct H as [|l ls Hl Hls]; cbn [cons_head].
  - constructor; [ | constructor ]. intros [E|[]]. congruence.
  - constructor; [ | exact Hls ]. intros [E|Hin]; [ congruence | auto ].
Qed.

(** No substring returned by [strings.Split] on the line feed holds a
    line feed. *)
Lemma Split_LF_no_LF (s : gostring) :
  Forall (fun l => ~ In LF l) (Split s [LF]).
Proof.
  induction s as [|c s IH].
  - constructor; [ intros [] | constructor ].
  - rewrite split_LF_cons. destruct (Ascii.eqb_spec c LF) as [->|Hc].
    + constructor; [ intros [] | exact IH ].
    + apply Forall_cons_head; assumption.
Qed.

(** Joining what [strings.Split] returns gives the text back. *)
Lemma Join_Split_LF (s : gostring) : Join (Split s [LF]) [LF] = s.
Proof.
  induction s as [|c s IH]; [ reflexivity | ].
  rewrite split_LF_cons.
  pose proof (split_from_nonempty [LF] s 0) as Hne. fold (Split s [LF]) in Hne.
  destruct (Split s [LF]) as [|l ls]; [ congruence | ].
  destruct (Ascii.eqb_spec c LF) as [->|Hc].
  - change (Join ([] :: l :: ls) [LF])
      with ([] ++ [LF] ++ Join (l :: ls) [LF]).
    rewrite IH. reflexivity.
  - cbn [cons_head]. rewrite <- IH.
    destruct ls; reflexivity.
Qed.

(** C8. For every text, [SetContent] replaces the lines by the lines of
    the text, a line ending at LF or at CR LF: no line holds a line feed,
    the lines joined by LF are the text with every CR LF turned into LF,
    and the text "a\r\nb\r\nc" gives the three lines "a", "b", "c".  The
    offset, as every field but the lines, is left as it was. *)
Theorem SetContent_lines (m : Model) (s : gostring) :
  SetContent m s = set_lines m (text_lines s) /\
  Forall (fun l => ~ In LF l) (lines (SetContent m s)) /\
  Join (lines (SetContent m s)) [LF] = Replace s [CR; LF] [LF] (-1) /\
  YOffset (SetContent m s) = YOffset m /\
  lines (SetContent m Samples.abc_crlf) = [str "a"; str "b"; str "c"].
Proof.
  unfold SetContent, call, SetContent_body. cbn [lines YOffset set_lines].
  split; [ rewrite Split_Replace_text_lines; reflexivity | ].
  split; [ apply Split_LF_no_LF | ].
  split; [ apply Join_Split_LF | ].
  split; reflexivity.
Qed.

(** C10. For every text, the lines that [SetContent] stores have at
    least one element; the empty text gives one empty line. *)
Theorem SetContent_lines_nonempty (m : Model) (s : gostring) :
  lines (SetContent m s) <> [] /\
  1 <= len (lines (SetContent m s)) /\
  lines (SetContent m []) = [[]].
Proof.
  unfold SetContent, call, SetContent_body. cbn [lines set_lines].
  pose proof (split_from_nonempty [LF] (Replace s [CR; LF] [LF] (-1)) 0)
    as Hne.
  fold (Split (Replace s [CR; LF] [LF] (-1)) [LF]) in Hne.
  split; [ exact Hne | split; [ | reflexivity ] ].
  destruct (Split (Replace s [CR; LF] [LF] (-1)) [LF]);
    [ congruence | ].
  unfold len. cbn [List.length]. lia.
Qed.

End Content.


(** ** More on the text field: editing round trips and rendering *)

Section Editing.
Import Go input.

Lemma slice_to_firstn {A : Type} (s : list A) (n : Z) :
  0 <= n <= len s -> slice_to s n = Ok (firstn (Z.to_nat n) s).
Proof.
  intros H. unfold slice_to. rewrite slice_Ok by lia.
  rewrite Z.sub_0_r. reflexivity.
Qed.

Lemma slice_from_skipn {A : Type} (s : list A) (n : Z) :
  0 <= n <= len s -> slice_from s n = Ok (skipn (Z.to_nat n) s).
Proof.
  intros H. unfold slice_from. rewrite slice_Ok by lia.
  rewrite firstn_all2; [ reflexivity | ].
  unfold len in *. rewrite length_skipn. lia.
Qed.

Lemma model_eta (m : Model) :
  mkModel (Prompt m) (Value m) (Cursor m) (HiddenCursor m) (BlinkSpeed m)
          (blink m) (pos m) = m.
Proof. destruct m; reflexivity. Qed.

Lemma firstn_insert {A : Type} (s mid : list A) (n : nat) :
  (n <= List.length s)%nat ->
  firstn n (firstn n s ++ mid ++ skipn n s) = firstn n s.
Proof.
  intros H. rewrite firstn_app, length_firstn.
  replace (n - Nat.min n (List.length s))%nat with 0%nat by lia.
  rewrite firstn_O, app_nil_r. apply firstn_all2.
  rewrite length_firstn. lia.
Qed.

Lemma skipn_insert {A : Type} (s mid : list A) (n : nat) :
  (n <= List.length s)%nat ->
  skipn (n + List.length mid) (firstn n s ++ mid ++ skipn n s) = skipn n s.
Proof.
  intros H. rewrite app_assoc. rewrite skipn_app.
  rewrite length_app, length_firstn.
  replace (Nat.min n (List.length s)) with n by lia.
  rewrite Nat.sub_diag, skipn_O.
  rewrite skipn_all2; [ reflexivity | ].
  rewrite length_app, length_firstn. lia.
Qed.

(** The state after typing the one-byte rune [c]. *)
Lemma Update_rune_state (k : KeyMsg) (c : ascii) (m : Model) :
  Type_ k = KeyRune -> String_ k = [c] -> well_typed m -> caret_ok m ->
  Update (Key k) m
  = Ok (set_pos (set_Value m (firstn (Z.to_nat (pos m)) (Value m) ++ [c]
                              ++ skipn (Z.to_nat (pos m)) (Value m)))
                (pos m + 1), NoCmd).
Proof.
  intros Hk Hs [Hlen Hpos] [Hc0 Hc1]. unfold Update. rewrite Hk, Hs.
  rewrite slice_to_firstn, slice_from_skipn by lia. cbn [bind].
  unfold is_int, int_min, int_max in *.
  cbn [pos set_Value]. exact_int. reflexivity.
Qed.

(** Typing a one-byte rune and then pressing backspace or delete gives
    the state back. *)
Theorem Update_rune_then_backspace (k kb : KeyMsg) (c : ascii) (m : Model) :
  Type_ k = KeyRune -> String_ k = [c] ->
  is_backspace (Key kb) = true ->
  well_typed m -> caret_ok m ->
  (r <- Update (Key k) m ;; Update (Key kb) (fst r)) = Ok (m, NoCmd).
Proof.
  intros Hk Hs Hb Hw Hc.
  rewrite (Update_rune_state k c m Hk Hs Hw Hc). cbn [bind fst].
  destruct Hw as [Hlen Hpos]. destruct Hc as [Hc0 Hc1].
  pose proof (len_nonneg (Value m)) as Hl.
  unfold is_int, int_min, int_max in *.
  set (n := Z.to_nat (pos m)).
  assert (Hn : (n <= List.length (Value m))%nat) by (unfold len in *; lia).
  assert (Hlen' : len (firstn n (Value m) ++ [c] ++ skipn n (Value m))
                  = len (Value m) + 1).
  { rewrite !len_app. unfold len. rewrite length_firstn, length_skipn.
    cbn [List.length]. lia. }
  assert (E : forall t, t = KeyBackspace \/ t = KeyDelete ->
              Type_ kb = t ->
              Update (Key kb)
                (set_pos (set_Value m (firstn n (Value m) ++ [c]
                                       ++ skipn n (Value m))) (pos m + 1))
              = Ok (m, NoCmd)).
  { intros t Ht Hkb. unfold Update. rewrite Hkb.
    cbn [set_pos set_Value Value pos].
    rewrite Hlen'.
    destruct (Z.gtb_spec (len (Value m) + 1) 0); [ | lia ].
    exact_int.
    replace (pos m + 1 - 1) with (pos m) by lia.
    destruct Ht; subst t;
      rewrite slice_to_firstn, slice_from_skipn by lia; cbn [bind];
      fold n;
      replace (Z.to_nat (pos m + 1)) with (n + List.length [c])%nat
        by (cbn [List.length]; lia);
      rewrite firstn_insert, skipn_insert by assumption;
      rewrite firstn_skipn; unfold set_pos, set_Value; cbn;
      rewrite model_eta; reflexivity. }
  unfold is_backspace in Hb.
  destruct (Type_ kb) eqn:Hkb; try discriminate;
    [ apply (E KeyBackspace) | apply (E KeyDelete) ]; auto.
Qed.

Lemma Update_rune_then_backspace_witness :
  Type_ (mkKey KeyRune (str "x")) = KeyRune /\
  String_ (mkKey KeyRune (str "x")) = ["x"%char] /\
  is_backspace (Key (mkKey KeyBackspace (str "backspace"))) = true /\
  well_typed (Samples.field "ab" 1) /\
  caret_ok (Samples.field "ab" 1) /\
  (r <- Update (Key (mkKey KeyRune (str "x"))) (Samples.field "ab" 1) ;;
   Update (Key (mkKey KeyBackspace (str "backspace"))) (fst r))
  = Ok (Samples.field "ab" 1, NoCmd).
Proof.
  assert (W : well_typed (Samples.field "ab" 1)).
  { unfold well_typed, is_int. vm_compute.
    repeat split; try reflexivity; discriminate. }
  assert (C : caret_ok (Samples.field "ab" 1))
    by (vm_compute; split; discriminate).
  split; [ reflexivity | split; [ reflexivity | split; [ reflexivity | ] ] ].
  split; [ exact W | split; [ exact C | ] ].
  apply (Update_rune_then_backspace
           (mkKey KeyRune (str "x")) (mkKey KeyBackspace (str "backspace"))
           "x"%char (Samples.field "ab" 1) eq_refl eq_refl eq_refl W C).
Defined.

(** Typing a one-byte rune, moving left and deleting the byte under the
    caret gives the state back. *)
Theorem Update_rune_left_delete (k kl kd : KeyMsg) (c : ascii) (m : Model) :
  Type_ k = KeyRune -> String_ k = [c] ->
  Type_ kl = KeyLeft -> Type_ kd = KeyCtrlD ->
  well_typed m -> caret_ok m ->
  (r <- Update (Key k) m ;;
   r <- Update (Key kl) (fst r) ;;
   Update (Key kd) (fst r)) = Ok (m, NoCmd).
Proof.
  intros Hk Hs Hl Hd Hw Hc.
  rewrite (Update_rune_state k c m Hk Hs Hw Hc). cbn [bind fst].
  destruct Hw as [Hlen Hpos]. destruct Hc as [Hc0 Hc1].
  pose proof (len_nonneg (Value m)) as Hnn.
  unfold is_int, int_min, int_max in *.
  set (n := Z.to_nat (pos m)).
  assert (Hn : (n <= List.length (Value m))%nat) by (unfold len in *; lia).
  assert (Hlen' : len (firstn n (Value m) ++ [c] ++ skipn n (Value m))
                  = len (Value m) + 1).
  { rewrite !len_app. unfold len. rewrite length_firstn, length_skipn.
    cbn [List.length]. lia. }
  unfold Update at 1. rewrite Hl. cbn [set_pos set_Value Value pos].
  destruct (Z.gtb_spec (pos m + 1) 0); [ | lia ].
  exact_int. replace (pos m + 1 - 1) with (pos m) by lia.
  cbn [bind fst]. unfold Update. rewrite Hd.
  cbn [set_pos set_Value Value pos]. rewrite Hlen'.
  destruct (Z.gtb_spec (len (Value m) + 1) 0); [ | lia ].
  destruct (Z.ltb_spec (pos m) (len (Value m) + 1)); [ | lia ].
  cbn [andb]. exact_int.
  rewrite slice_to_firstn, slice_from_skipn by lia. cbn [bind].
  fold n.
  replace (Z.to_nat (pos m + 1)) with (n + List.length [c])%nat
    by (cbn [List.length]; lia).
  rewrite firstn_insert, skipn_insert by assumption.
  rewrite firstn_skipn. unfold set_Value. cbn.
  rewrite model_eta. reflexivity.
Qed.

Lemma Update_rune_left_delete_witness :
  Type_ (mkKey KeyRune (str "x")) = KeyRune /\
  String_ (mkKey KeyRune (str "x")) = ["x"%char] /\
  Type_ (mkKey KeyLeft (str "left")) = KeyLeft /\
  Type_ (mkKey KeyCtrlD (str "ctrl+d")) = KeyCtrlD /\
  well_typed (Samples.field "ab" 2) /\
  caret_ok (Samples.field "ab" 2) /\
  (r <- Update (Key (mkKey KeyRune (str "x"))) (Samples.field "ab" 2) ;;
   r <- Update (Key (mkKey KeyLeft (str "left"))) (fst r) ;;
   Update (Key (mkKey KeyCtrlD (str "ctrl+d"))) (fst r))
  = Ok (Samples.field "ab" 2, NoCmd).
Proof.
  assert (W : well_typed (Samples.field "ab" 2)).
  { unfold well_typed, is_int. vm_compute.
    repeat split; try reflexivity; discriminate. }
  assert (C : caret_ok (Samples.field "ab" 2))
    by (vm_compute; split; discriminate).
  do 4 (split; [ reflexivity | ]).
  split; [ exact W | split; [ exact C | ] ].
  apply (Update_rune_left_delete
           (mkKey KeyRune (str "x")) (mkKey KeyLeft (str "left"))
           (mkKey KeyCtrlD (str "ctrl+d"))
           "x"%char (Samples.field "ab" 2)
           eq_refl eq_refl eq_refl eq_refl W C).
Defined.

(** Left and then right from a caret that is not at the start, and
    right and then left from a caret that is not at the end, give the
    state back. *)
Theorem Update_left_right (kl kr : KeyMsg) (m : Model) :
  Type_ kl = KeyLeft -> Type_ kr = KeyRight ->
  well_typed m -> caret_ok m ->
  (0 < pos m ->
   (r <- Update (Key kl) m ;; Update (Key kr) (fst r)) = Ok (m, NoCmd)) /\
  (pos m < len (Value m) ->
   (r <- Update (Key kr) m ;; Update (Key kl) (fst r)) = Ok (m, NoCmd)).
Proof.
  intros Hl Hr [Hlen Hpos] [Hc0 Hc1].
  unfold is_int, int_min, int_max in *.
  split; intros H; unfold Update; rewrite Hl, Hr.
  - destruct (Z.gtb_spec (pos m) 0); [ | lia ].
    cbn [bind fst set_pos Value pos]. exact_int.
    destruct (Z.ltb_spec (pos m - 1) (len (Value m))); [ | lia ].
    exact_int. replace (pos m - 1 + 1) with (pos m) by lia.
    unfold set_pos. cbn. rewrite model_eta. reflexivity.
  - destruct (Z.ltb_spec (pos m) (len (Value m))); [ | lia ].
    cbn [bind fst set_pos Value pos]. exact_int.
    destruct (Z.gtb_spec (pos m + 1) 0); [ | lia ].
    exact_int. replace (pos m + 1 - 1) with (pos m) by lia.
    unfold set_pos. cbn. rewrite model_eta. reflexivity.
Qed.

Lemma Update_left_right_witness :
  Type_ (mkKey KeyLeft (str "left")) = KeyLeft /\
  Type_ (mkKey KeyRight (str "right")) = KeyRight /\
  well_typed (Samples.field "hello" 2) /\
  caret_ok (Samples.field "hello" 2) /\
  0 < pos (Samples.field "hello" 2) /\
  (r <- Update (Key (mkKey KeyLeft (str "left"))) (Samples.field "hello" 2) ;;
   Update (Key (mkKey KeyRight (str "right"))) (fst r))
  = Ok (Samples.field "hello" 2, NoCmd) /\
  pos (Samples.field "hello" 2) < len (Value (Samples.field "hello" 2)) /\
  (r <- Update (Key (mkKey KeyRight (str "right"))) (Samples.field "hello" 2) ;;
   Update (Key (mkKey KeyLeft (str "left"))) (fst r))
  = Ok (Samples.field "hello" 2, NoCmd).
Proof.
  assert (W : well_typed (Samples.field "hello" 2)).
  { unfold well_typed, is_int. vm_compute.
    repeat split; try reflexivity; discriminate. }
  assert (C : caret_ok (Samples.field "hello" 2))
    by (vm_compute; split; discriminate).
  assert (P : 0 < pos (Samples.field "hello" 2)) by (vm_compute; reflexivity).
  assert (Q : pos (Samples.field "hello" 2)
              < len (Value (Samples.field "hello" 2)))
    by (vm_compute; reflexivity).
  destruct (Update_left_right (mkKey KeyLeft (str "left"))
                              (mkKey KeyRight (str "right"))
                              (Samples.field "hello" 2) eq_refl eq_refl W C)
    as [HL HR].
  do 2 (split; [ reflexivity | ]).
  split; [ exact W | split; [ exact C | ] ].
  split; [ exact P | split; [ exact (HL P) | ] ].
  split; [ exact Q | exact (HR Q) ].
Defined.

(** Kill-to-end cuts the value at the caret, which is then at the end;
    a second kill-to-end changes nothing. *)
Theorem Update_kill_to_end (k : KeyMsg) (m : Model) :
  Type_ k = KeyCtrlK -> caret_ok m ->
  let m' := set_pos (set_Value m (firstn (Z.to_nat (pos m)) (Value m)))
                    (pos m) in
  Update (Key k) m = Ok (m', NoCmd) /\
  len (Value m') = pos m' /\
  Update (Key k) m' = Ok (m', NoCmd).
Proof.
  intros Hk [Hc0 Hc1] m'.
  assert (Hl : len (firstn (Z.to_nat (pos m)) (Value m)) = pos m).
  { unfold len in *. rewrite length_firstn. lia. }
  assert (E1 : Update (Key k) m = Ok (m', NoCmd)).
  { unfold Update. rewrite Hk. rewrite slice_to_firstn by lia.
    cbn [bind set_Value Value]. rewrite Hl. reflexivity. }
  split; [ exact E1 | split; [ exact Hl | ] ].
  unfold Update. rewrite Hk. subst m'. cbn [set_pos set_Value Value pos].
  rewrite slice_to_firstn by lia. cbn [bind].
  rewrite firstn_firstn, Nat.min_id. unfold set_Value, set_pos. cbn.
  rewrite Hl. reflexivity.
Qed.

Lemma Update_kill_to_end_witness :
  Type_ (mkKey KeyCtrlK (str "ctrl+k")) = KeyCtrlK /\
  caret_ok (Samples.field "hello" 2) /\
  Update (Key (mkKey KeyCtrlK (str "ctrl+k"))) (Samples.field "hello" 2)
    = Ok (Samples.field "he" 2, NoCmd).
Proof.
  assert (C : caret_ok (Samples.field "hello" 2))
    by (vm_compute; split; discriminate).
  split; [ reflexivity | split; [ exact C | ] ].
  apply (Update_kill_to_end (mkKey KeyCtrlK (str "ctrl+k"))
                            (Samples.field "hello" 2) eq_refl C).
Defined.

(** An update never returns a command and never touches the prompt, the
    cursor strings and the blink speed; the blink flag is flipped by the
    blink message, which leaves the value and the caret alone, and by
    nothing else. *)
Theorem Update_frame (msg : Msg) (m m' : Model) (c : Cmd) :
  Update msg m = Ok (m', c) ->
  c = NoCmd /\
  Prompt m' = Prompt m /\ Cursor m' = Cursor m /\
  HiddenCursor m' = HiddenCursor m /\ BlinkSpeed m' = BlinkSpeed m /\
  match msg with
  | CursorBlinkMsg =>
      blink m' = negb (blink m) /\ Value m' = Value m /\ pos m' = pos m
  | _ => blink m' = blink m
  end.
Proof.
  intros H. destruct c.
  destruct msg as [[t s] | | ]; [ destruct t | | ];
    unfold Update in H; cbn [Type_ String_] in H;
    repeat match type of H with
           | context [if ?b then _ else _] => destruct b
           end;
    repeat match type of H with
           | context [bind (slice_to ?v ?i) _] =>
               destruct (slice_to v i); cbn [bind] in H
           | context [bind (slice_from ?v ?i) _] =>
               destruct (slice_from v i); cbn [bind] in H
           end;
    try discriminate; injection H as <-; repeat split.
Qed.

Lemma Update_frame_witness :
  Update CursorBlinkMsg (Samples.field "ab" 1)
    = Ok (set_blink (Samples.field "ab" 1) true, NoCmd) /\
  blink (set_blink (Samples.field "ab" 1) true)
    = negb (blink (Samples.field "ab" 1)).
Proof.
  split; [ reflexivity | ].
  apply (Update_frame CursorBlinkMsg (Samples.field "ab" 1)
                      (set_blink (Samples.field "ab" 1) true) NoCmd eq_refl).
Defined.

(** [View] returns exactly on the states that satisfy the invariant:
    a caret outside of the value makes the rendering panic. *)
Theorem View_returns_iff (Invert : gostring -> gostring) (m : Model) :
  well_typed m -> (is_ok (View Invert m) = true <-> caret_ok m).
Proof.
  intros Hw. split; [ | apply View_total; exact Hw ].
  unfold View.
  destruct (slice_to (Value m) (pos m)) as [front|] eqn:E;
    [ | cbn; discriminate ].
  intros _. apply slice_len in E. unfold caret_ok. lia.
Qed.

Lemma View_returns_iff_witness :
  well_typed (Samples.field "ab" 3) /\
  (is_ok (View Samples.bracket (Samples.field "ab" 3)) = true
   <-> caret_ok (Samples.field "ab" 3)).
Proof.
  assert (W : well_typed (Samples.field "ab" 3)).
  { unfold well_typed, is_int. vm_compute.
    repeat split; try reflexivity; discriminate. }
  split; [ exact W | ].
  apply (View_returns_iff Samples.bracket (Samples.field "ab" 3) W).
Defined.

Lemma nth_error_middle {A : Type} (s : list A) (n : nat) (a : A) :
  nth_error s n = Some a -> firstn n s ++ [a] ++ skipn (S n) s = s.
Proof.
  revert n. induction s as [|x s IH]; intros [|n] H; try discriminate.
  - injection H as ->. reflexivity.
  - cbn [firstn skipn app]. f_equal. apply IH. exact H.
Qed.

(** In the blink phase that shows the cursor plainly, the rendering of a
    value of ASCII bytes is the prompt and the value, followed by a space
    when the caret is at the end. *)
Theorem View_plain_cursor (Invert : gostring -> gostring) (m : Model) :
  well_typed m -> caret_ok m -> blink m = true ->
  Forall (fun b => (N_of_ascii b < 128)%N) (Value m) ->
  View Invert m
  = Ok (Prompt m ++ Value m
        ++ (if pos m <? len (Value m) then [] else str " ")).
Proof.
  intros [Hlen Hpos] [Hc0 Hc1] Hb Hascii.
  unfold is_int, int_min, int_max in *.
  unfold View. rewrite slice_to_firstn by lia. cbn [bind].
  destruct (Z.ltb_spec (pos m) (len (Value m))) as [Hlt|Hge].
  - unfold index.
    destruct (Z.leb_spec 0 (pos m)); [ | lia ].
    destruct (Z.ltb_spec (pos m) (len (Value m))); [ | lia ].
    cbn [andb].
    destruct (nth_error (Value m) (Z.to_nat (pos m))) as [b|] eqn:E.
    + cbn [bind]. exact_int.
      rewrite slice_from_skipn by lia. cbn [bind].
      assert (Hsmall : (N_of_ascii b < 128)%N).
      { rewrite Forall_forall in Hascii. apply Hascii.
        eapply nth_error_In. exact E. }
      unfold string_of_byte.
      destruct (Z.ltb_spec (Z.of_N (N_of_ascii b)) 128); [ | lia ].
      rewrite Hb. unfold cursor.
      replace (Z.to_nat (pos m + 1)) with (S (Z.to_nat (pos m))) by lia.
      rewrite <- app_assoc.
      rewrite (nth_error_middle _ _ _ E), app_nil_r. reflexivity.
    + apply nth_error_None in E. unfold len in *. lia.
  - cbn [bind]. rewrite Hb. unfold cursor.
    rewrite firstn_all2 by (unfold len in *; lia). reflexivity.
Qed.

Lemma View_plain_cursor_witness :
  well_typed (set_blink (Samples.field "ab" 1) true) /\
  caret_ok (set_blink (Samples.field "ab" 1) true) /\
  blink (set_blink (Samples.field "ab" 1) true) = true /\
  Forall (fun b => (N_of_ascii b < 128)%N)
         (Value (set_blink (Samples.field "ab" 1) true)) /\
  View Samples.bracket (set_blink (Samples.field "ab" 1) true)
    = Ok (str "> ab").
Proof.
  assert (W : well_typed (set_blink (Samples.field "ab" 1) true)).
  { unfold well_typed, is_int. vm_compute.
    repeat split; try reflexivity; discriminate. }
  assert (C : caret_ok (set_blink (Samples.field "ab" 1) true))
    by (vm_compute; split; discriminate).
  assert (F : Forall (fun b => (N_of_ascii b < 128)%N)
                     (Value (set_blink (Samples.field "ab" 1) true)))
    by (repeat constructor).
  split; [ exact W | split; [ exact C | split; [ reflexivity | ] ] ].
  split; [ exact F | ].
  apply (View_plain_cursor Samples.bracket
           (set_blink (Samples.field "ab" 1) true) W C eq_refl F).
Defined.

Lemma Update_panics_iff_witness :
  well_typed (Samples.field "ab" 0) /\
  caret_ok (Samples.field "ab" 0) /\
  (is_ok (Update (Samples.press KeyBackspace "backspace")
                 (Samples.field "ab" 0)) = false
   <-> is_backspace (Samples.press KeyBackspace "backspace") = true /\
       pos (Samples.field "ab" 0) = 0 /\
       Value (Samples.field "ab" 0) <> []).
Proof.
  assert (W : well_typed (Samples.field "ab" 0)).
  { unfold well_typed, is_int. vm_compute.
    repeat split; try reflexivity; discriminate. }
  assert (C : caret_ok (Samples.field "ab" 0))
    by (vm_compute; split; discriminate).
  split; [ exact W | split; [ exact C | ] ].
  apply (Update_panics_iff (Samples.press KeyBackspace "backspace")
                           (Samples.field "ab" 0) W C).
Defined.

Lemma Update_keeps_caret_ok_witness :
  well_typed (Samples.field "ab" 1) /\
  caret_ok (Samples.field "ab" 1) /\
  rune_ok (Samples.press KeyRune "x") /\
  ~ (is_move_to_end (Samples.press KeyRune "x") = true /\
     Value (Samples.field "ab" 1) = []) /\
  Update (Samples.press KeyRune "x") (Samples.field "ab" 1)
    = Ok (Samples.field "axb" 2, NoCmd) /\
  caret_ok (Samples.field "axb" 2).
Proof.
  assert (W : well_typed (Samples.field "ab" 1)).
  { unfold well_typed, is_int. vm_compute.
    repeat split; try reflexivity; discriminate. }
  assert (C : caret_ok (Samples.field "ab" 1))
    by (vm_compute; split; discriminate).
  assert (R : rune_ok (Samples.press KeyRune "x")) by (cbn; discriminate).
  assert (N : ~ (is_move_to_end (Samples.press KeyRune "x") = true /\
                 Value (Samples.field "ab" 1) = []))
    by (intros [_ E]; discriminate E).
  split; [ exact W | split; [ exact C | split; [ exact R | ] ] ].
  split; [ exact N | split; [ reflexivity | ] ].
  apply (Update_keeps_caret_ok (Samples.press KeyRune "x")
           (Samples.field "ab" 1) (Samples.field "axb" 2) NoCmd
           W C R N eq_refl).
Defined.

End Editing.


(** ** More on the viewport: the other navigation methods *)

Section Navigation.
Import Go viewport.

Ltac split_tests :=
  repeat match goal with
         | |- context [?a <? ?b] => destruct (Z.ltb_spec a b)
         | |- context [?a >? ?b] => destruct (Z.gtb_spec a b)
         | |- context [?a <=? ?b] => destruct (Z.leb_spec a b)
         | |- context [?a >=? ?b] => destruct (Z.geb_spec a b)
         | |- context [?a =? ?b] => destruct (Z.eqb_spec a b)
         end.

Lemma min_is_Zmin (a b : Z) : min a b = Z.min a b.
Proof. unfold min. split_tests; lia. Qed.

Lemma max_is_Zmax (a b : Z) : max a b = Z.max a b.
Proof. unfold max. split_tests; lia. Qed.

(** [clamp] brings a value into a non-empty range and leaves the values
    of the range alone; on an empty range it returns the lower bound. *)
Theorem clamp_range (val low high : Z) :
  (low <= high ->
   low <= clamp val low high <= high /\
   (low <= val <= high -> clamp val low high = val)) /\
  (high < low -> clamp val low high = low).
Proof.
  unfold clamp. rewrite max_is_Zmax, min_is_Zmin. lia.
Qed.

Lemma clamp_range_witness :
  3 <= 9 /\ 3 <= clamp 12 3 9 <= 9 /\
  2 < 5 /\ clamp 12 5 2 = 5.
Proof.
  assert (A : 3 <= 9) by lia.
  assert (B : 2 < 5) by lia.
  split; [ exact A | split ].
  - destruct (clamp_range 12 3 9) as [H _]. apply (H A).
  - split; [ exact B | ].
    destruct (clamp_range 12 5 2) as [_ H]. apply (H B).
Defined.

Lemma range_exact (m : Model) :
  well_typed m -> 0 <= Height m ->
  sub (len (lines m)) (Height m) = len (lines m) - Height m.
Proof.
  intros (Hw & Hh & Ho & Hy & Hl) Hh0.
  pose proof (len_nonneg (lines m)). exact_int. reflexivity.
Qed.

Lemma AtBottom_exact (m : Model) :
  well_typed m -> 0 <= Height m ->
  AtBottom m = (YOffset m >=? len (lines m) - Height m - 1).
Proof.
  intros (Hw & Hh & Ho & Hy & Hl) Hh0.
  pose proof (len_nonneg (lines m)). unfold AtBottom. exact_int.
  reflexivity.
Qed.

Lemma half_bounds (h : Z) : 0 <= h -> 0 <= Z.quot h 2 <= h.
Proof.
  intros H. rewrite Z.quot_div_nonneg by lia.
  pose proof (Z.div_pos h 2). pose proof (Z.div_le_upper_bound h 2 h).
  lia.
Qed.

(** [LineDown(n)] and [LineUp(n)] with [n >= 0] keep the offset within
    the invariant and move it by at most [n] lines, down and up. *)
Theorem LineDown_LineUp_keep_offset_ok (m : Model) (n : Z) :
  well_typed m -> 0 <= Height m -> offset_ok m ->
  0 <= n -> YOffset m + n <= int_max ->
  offset_ok (LineDown m n) /\
  YOffset m <= YOffset (LineDown m n) <= YOffset m + n /\
  offset_ok (LineUp m n) /\
  YOffset m - n <= YOffset (LineUp m n) <= YOffset m.
Proof.
  intros Hw Hh0 [Ho0 Ho1] Hn0 Hn1.
  pose proof (len_nonneg (lines m)) as Hlen.
  unfold LineDown, LineUp, call, LineDown_body, LineUp_body, AtTop.
  rewrite (AtBottom_exact m Hw Hh0), (range_exact m Hw Hh0).
  destruct Hw as (Hw & Hh & Ho & Hy & Hl).
  unfold offset_ok, is_int, int_min, int_max in *.
  destruct (Z.geb_spec (YOffset m) (len (lines m) - Height m - 1));
    destruct (Z.leb_spec (YOffset m) 0);
    destruct (Z.eqb_spec n 0); cbn [orb];
    cbn [YOffset lines Height set_YOffset];
    exact_int; unfold min, max; split_tests; lia.
Qed.

Lemma LineDown_LineUp_keep_offset_ok_witness :
  well_typed (Samples.pager 25 10 10) /\
  0 <= Height (Samples.pager 25 10 10) /\
  offset_ok (Samples.pager 25 10 10) /\
  0 <= 3 /\ YOffset (Samples.pager 25 10 10) + 3 <= int_max /\
  offset_ok (LineDown (Samples.pager 25 10 10) 3).
Proof.
  assert (W : well_typed (Samples.pager 25 10 10)).
  { unfold well_typed, is_int. vm_compute. repeat split; discriminate. }
  assert (H : 0 <= Height (Samples.pager 25 10 10))
    by (vm_compute; discriminate).
  assert (O : offset_ok (Samples.pager 25 10 10))
    by (vm_compute; split; discriminate).
  assert (N : 0 <= 3) by lia.
  assert (B : YOffset (Samples.pager 25 10 10) + 3 <= int_max)
    by (vm_compute; discriminate).
  split; [ exact W | split; [ exact H | split; [ exact O | ] ] ].
  split; [ exact N | split; [ exact B | ] ].
  apply (LineDown_LineUp_keep_offset_ok (Samples.pager 25 10 10) 3
                                        W H O N B).
Defined.

Lemma page_moves_offsets (m : Model) :
  well_typed m -> 0 <= Height m -> offset_ok m ->
  (offset_ok (ViewUp m) /\ YOffset (ViewUp m) <= YOffset m) /\
  (offset_ok (HalfViewDown m) /\ YOffset m <= YOffset (HalfViewDown m)) /\
  (offset_ok (HalfViewUp m) /\ YOffset (HalfViewUp m) <= YOffset m).
Proof.
  intros Hw Hh0 [Ho0 Ho1].
  pose proof (len_nonneg (lines m)) as Hlen.
  pose proof (half_bounds (Height m) Hh0) as Hq.
  unfold ViewUp, HalfViewDown, HalfViewUp, call,
         ViewUp_body, HalfViewDown_body, HalfViewUp_body, AtTop.
  rewrite (AtBottom_exact m Hw Hh0), (range_exact m Hw Hh0).
  destruct Hw as (Hw & Hh & Ho & Hy & Hl).
  unfold offset_ok, is_int, int_min, int_max in *.
  destruct (Z.geb_spec (YOffset m) (len (lines m) - Height m - 1));
    destruct (Z.leb_spec (YOffset m) 0);
    cbn [YOffset lines Height set_YOffset];
    exact_int; unfold min, max; split_tests; lia.
Qed.

(** [ViewUp], [HalfViewDown] and [HalfViewUp] keep the offset within the
    invariant; the first and the last never move it down, the second
    never moves it up. *)
Theorem page_moves_keep_offset_ok (m : Model) :
  well_typed m -> 0 <= Height m -> offset_ok m ->
  (offset_ok (ViewUp m) /\ YOffset (ViewUp m) <= YOffset m) /\
  (offset_ok (HalfViewDown m) /\ YOffset m <= YOffset (HalfViewDown m)) /\
  (offset_ok (HalfViewUp m) /\ YOffset (HalfViewUp m) <= YOffset m).
Proof. exact (page_moves_offsets m). Qed.

Lemma page_moves_keep_offset_ok_witness :
  well_typed (Samples.pager 25 10 7) /\
  0 <= Height (Samples.pager 25 10 7) /\
  offset_ok (Samples.pager 25 10 7) /\
  offset_ok (HalfViewDown (Samples.pager 25 10 7)).
Proof.
  assert (W : well_typed (Samples.pager 25 10 7)).
  { unfold well_typed, is_int. vm_compute. repeat split; discriminate. }
  assert (H : 0 <= Height (Samples.pager 25 10 7))
    by (vm_compute; discriminate).
  assert (O : offset_ok (Samples.pager 25 10 7))
    by (vm_compute; split; discriminate).
  split; [ exact W | split; [ exact H | split; [ exact O | ] ] ].
  apply (page_moves_keep_offset_ok (Samples.pager 25 10 7) W H O).
Defined.

Lemma ViewDown_keeps_offset_ok (m : Model) :
  well_typed m -> 0 <= Height m -> offset_ok m -> offset_ok (ViewDown m).
Proof.
  intros Hw Hh0 [Ho0 Ho1].
  pose proof (len_nonneg (lines m)) as Hlen.
  unfold ViewDown, call, ViewDown_body.
  rewrite (AtBottom_exact m Hw Hh0), (range_exact m Hw Hh0).
  destruct Hw as (Hw & Hh & Ho & Hy & Hl).
  unfold offset_ok, is_int, int_min, int_max in *.
  destruct (Z.geb_spec (YOffset m) (len (lines m) - Height m - 1));
    cbn [YOffset lines Height set_YOffset];
    exact_int; unfold min; split_tests; lia.
Qed.

Lemma one_line_keeps_offset_ok (m : Model) :
  well_typed m -> 0 <= Height m -> offset_ok m ->
  offset_ok (LineDown m 1) /\ offset_ok (LineUp m 1).
Proof.
  intros Hw Hh0 [Ho0 Ho1].
  pose proof (len_nonneg (lines m)) as Hlen.
  unfold LineDown, LineUp, call, LineDown_body, LineUp_body, AtTop.
  rewrite (AtBottom_exact m Hw Hh0), (range_exact m Hw Hh0).
  destruct Hw as (Hw & Hh & Ho & Hy & Hl).
  unfold offset_ok, is_int, int_min, int_max in *.
  destruct (Z.geb_spec (YOffset m) (len (lines m) - Height m - 1));
    destruct (Z.leb_spec (YOffset m) 0);
    cbn [orb Z.eqb];
    cbn [YOffset lines Height set_YOffset];
    exact_int; unfold min, max; split_tests; lia.
Qed.

Lemma set_YOffset_eta (m : Model) : set_YOffset m (YOffset m) = m.
Proof. destruct m; reflexivity. Qed.

(** The navigation methods assign to the offset and to nothing else. *)
Lemma navigation_frame (m : Model) (n : Z) :
  ViewDown m = set_YOffset m (YOffset (ViewDown m)) /\
  ViewUp m = set_YOffset m (YOffset (ViewUp m)) /\
  HalfViewDown m = set_YOffset m (YOffset (HalfViewDown m)) /\
  HalfViewUp m = set_YOffset m (YOffset (HalfViewUp m)) /\
  LineDown m n = set_YOffset m (YOffset (LineDown m n)) /\
  LineUp m n = set_YOffset m (YOffset (LineUp m n)).
Proof.
  unfold ViewDown, ViewUp, HalfViewDown, HalfViewUp, LineDown, LineUp, call,
    ViewDown_body, ViewUp_body, HalfViewDown_body, HalfViewUp_body,
    LineDown_body, LineUp_body.
  destruct (AtBottom m); destruct (AtTop m); destruct (n =? 0);
    cbn [orb]; rewrite ?set_YOffset_eta; repeat split.
Qed.

(** Whatever the message, the update of the viewport keeps the offset
    within the invariant and changes no other field of the model. *)
Theorem viewport_Update_keeps_offset_ok
        (msg : Msg) (m m' : Model) (c : Cmd) :
  well_typed m -> 0 <= Height m -> offset_ok m ->
  Update msg m = Ok (m', c) ->
  offset_ok m' /\ m' = set_YOffset m (YOffset m').
Proof.
  intros Hw Hh0 Hok H.
  pose proof (ViewDown_keeps_offset_ok m Hw Hh0 Hok) as Pd.
  pose proof (page_moves_offsets m Hw Hh0 Hok)
    as ((Pu & _) & (Phd & _) & (Phu & _)).
  pose proof (one_line_keeps_offset_ok m Hw Hh0 Hok) as (Pld & Plu).
  pose proof (navigation_frame m 1) as (Fd & Fu & Fhd & Fhu & Fld & Flu).
  destruct msg as [s|]; unfold Update in H;
    [ | injection H as <- <-; split;
        [ exact Hok | symmetry; apply set_YOffset_eta ] ].
  repeat match type of H with
         | context [if ?b then _ else _] => destruct b
         end;
    repeat match type of H with
           | context [bind ?r _] => destruct r; cbn [bind] in H
           end;
    try discriminate; injection H as <- <-;
    (split; [ assumption | assumption ])
    || (split; [ exact Hok | symmetry; apply set_YOffset_eta ]).
Qed.

Lemma viewport_Update_keeps_offset_ok_witness :
  well_typed (Samples.pager 25 10 10) /\
  0 <= Height (Samples.pager 25 10 10) /\
  offset_ok (Samples.pager 25 10 10) /\
  Update (KeyMsg (str "pgdown")) (Samples.pager 25 10 10)
    = Ok (Samples.pager 25 10 15, NoCmd) /\
  offset_ok (Samples.pager 25 10 15).
Proof.
  assert (W : well_typed (Samples.pager 25 10 10)).
  { unfold well_typed, is_int. vm_compute. repeat split; discriminate. }
  assert (H : 0 <= Height (Samples.pager 25 10 10))
    by (vm_compute; discriminate).
  assert (O : offset_ok (Samples.pager 25 10 10))
    by (vm_compute; split; discriminate).
  split; [ exact W | split; [ exact H | split; [ exact O | ] ] ].
  split; [ reflexivity | ].
  apply (viewport_Update_keeps_offset_ok (KeyMsg (str "pgdown"))
           (Samples.pager 25 10 10) (Samples.pager 25 10 15) NoCmd
           W H O eq_refl).
Defined.

Ltac command_returns :=
  match goal with
  | Hs : scrollable ?m |- _ =>
      let Hw := fresh "Hw" in
      let Hh1 := fresh "Hh1" in
      let Ho0 := fresh "Ho0" in
      let Ho1 := fresh "Ho1" in
      let Hsum := fresh "Hsum" in
      let Hh0 := fresh "Hh0" in
      destruct Hs as (Hw & Hh1 & [Ho0 Ho1] & Hsum);
      assert (Hh0 : 0 <= Height m) by lia;
      pose proof (len_nonneg (lines m));
      pose proof (half_bounds (Height m) Hh0);
      unfold AtTop; rewrite ?(AtBottom_exact m Hw Hh0);
      destruct Hw as (? & ? & ? & ? & ?);
      unfold is_int, int_min, int_max in *;
      destruct (Z.geb_spec (YOffset m) (len (lines m) - Height m - 1));
      destruct (Z.leb_spec (YOffset m) 0);
      cbn [orb Z.eqb]; try reflexivity;
      unfold clamp; rewrite ?max_is_Zmax, ?min_is_Zmin;
      exact_int; rewrite slice_Ok by lia; reflexivity
  end.

Lemma Cmds_ViewDown_returns (m : Model) :
  scrollable m -> is_ok (Cmds.ViewDown m) = true.
Proof. intros Hs. unfold Cmds.ViewDown. command_returns. Qed.

Lemma Cmds_ViewUp_returns (m : Model) :
  scrollable m -> is_ok (Cmds.ViewUp m) = true.
Proof. intros Hs. unfold Cmds.ViewUp. command_returns. Qed.

Lemma Cmds_HalfViewDown_returns (m : Model) :
  scrollable m -> is_ok (Cmds.HalfViewDown m) = true.
Proof. intros Hs. unfold Cmds.HalfViewDown. command_returns. Qed.

Lemma Cmds_HalfViewUp_returns (m : Model) :
  scrollable m -> is_ok (Cmds.HalfViewUp m) = true.
Proof. intros Hs. unfold Cmds.HalfViewUp. command_returns. Qed.

Lemma Cmds_LineDown_returns (m : Model) :
  scrollable m -> is_ok (Cmds.LineDown m 1) = true.
Proof. intros Hs. unfold Cmds.LineDown. command_returns. Qed.

Lemma Cmds_LineUp_returns (m : Model) :
  scrollable m -> is_ok (Cmds.LineUp m 1) = true.
Proof. intros Hs. unfold Cmds.LineUp. command_returns. Qed.

(** Without high performance rendering the update never panics and
    never returns a command, on any state.  With it, the update returns
    on every state within the invariant that has at least one row. *)
Theorem viewport_Update_returns (msg : Msg) (m : Model) :
  (HighPerformanceRendering m = false ->
   exists m', Update msg m = Ok (m', NoCmd)) /\
  (scrollable m -> is_ok (Update msg m) = true).
Proof.
  split.
  - intros Hhp. destruct msg as [s|]; unfold Update; rewrite ?Hhp;
      [ | eexists; reflexivity ].
    repeat match goal with
           | |- context [if ?b then _ else _] => destruct b
           end; cbn [bind]; eexists; reflexivity.
  - intros Hs.
    pose proof (Cmds_ViewDown_returns m Hs).
    pose proof (Cmds_ViewUp_returns m Hs).
    pose proof (Cmds_HalfViewDown_returns m Hs).
    pose proof (Cmds_HalfViewUp_returns m Hs).
    pose proof (Cmds_LineDown_returns m Hs).
    pose proof (Cmds_LineUp_returns m Hs).
    destruct msg as [s|]; unfold Update; [ | reflexivity ].
    destruct (HighPerformanceRendering m);
      repeat match goal with
             | |- context [if ?b then _ else _] => destruct b
             end; cbn [bind is_ok]; try reflexivity;
      match goal with
      | |- context [bind ?r _] => destruct r; [ reflexivity | discriminate ]
      end.
Qed.

Lemma viewport_Update_returns_witness :
  scrollable (Samples.fast_pager 25 10 3) /\
  is_ok (Update (KeyMsg (str "pgdown")) (Samples.fast_pager 25 10 3)) = true.
Proof.
  assert (S : scrollable (Samples.fast_pager 25 10 3)).
  { unfold scrollable, well_typed, offset_ok, is_int. vm_compute.
    repeat split; discriminate. }
  split; [ exact S | ].
  apply (viewport_Update_returns (KeyMsg (str "pgdown"))
                                 (Samples.fast_pager 25 10 3)).
  exact S.
Defined.

(** One line above the last page every method that moves down is at
    rest, although the rows shown end before the last line of the
    content. *)
Theorem down_moves_stop_one_line_short (m : Model) (n : Z) :
  well_typed m -> 0 <= Height m -> 0 <= YOffset m ->
  YOffset m = len (lines m) - Height m - 1 ->
  ViewDown m = m /\ HalfViewDown m = m /\ LineDown m n = m /\
  visible m = slice (lines m) (YOffset m) (len (lines m) - 1).
Proof.
  intros Hw Hh0 Ho0 Hoff.
  pose proof (len_nonneg (lines m)) as Hlen.
  unfold ViewDown, HalfViewDown, LineDown, call, ViewDown_body,
    HalfViewDown_body, LineDown_body, visible.
  rewrite (AtBottom_exact m Hw Hh0).
  destruct Hw as (Hw & Hh & Ho & Hy & Hl).
  unfold is_int, int_min, int_max in *.
  destruct (Z.geb_spec (YOffset m) (len (lines m) - Height m - 1));
    [ | lia ].
  cbn [orb]. repeat split.
  destruct (Z.gtb_spec (len (lines m)) 0); [ | lia ].
  rewrite max_is_Zmax, min_is_Zmin. exact_int.
  f_equal; lia.
Qed.

Lemma down_moves_stop_one_line_short_witness :
  well_typed (Samples.pager 25 10 14) /\
  0 <= Height (Samples.pager 25 10 14) /\
  0 <= YOffset (Samples.pager 25 10 14) /\
  YOffset (Samples.pager 25 10 14)
  = len (lines (Samples.pager 25 10 14))
    - Height (Samples.pager 25 10 14) - 1 /\
  LineDown (Samples.pager 25 10 14) 1 = Samples.pager 25 10 14.
Proof.
  assert (W : well_typed (Samples.pager 25 10 14)).
  { unfold well_typed, is_int. vm_compute. repeat split; discriminate. }
  assert (H : 0 <= Height (Samples.pager 25 10 14))
    by (vm_compute; discriminate).
  assert (O : 0 <= YOffset (Samples.pager 25 10 14))
    by (vm_compute; discriminate).
  split; [ exact W | split; [ exact H | split; [ exact O | ] ] ].
  split; [ reflexivity | ].
  apply (down_moves_stop_one_line_short (Samples.pager 25 10 14) 1
                                        W H O eq_refl).
Defined.

(** Moving down by [n] lines and then up by [n] lines gives the state
    back, when the move down is not cut off at the last page. *)
Theorem LineDown_then_LineUp (m : Model) (n : Z) :
  well_typed m -> 0 <= Height m -> 0 <= YOffset m -> 0 < n ->
  AtBottom m = false -> YOffset m + n <= len (lines m) - Height m ->
  LineUp (LineDown m n) n = m.
Proof.
  intros Hw Hh0 Ho0 Hn Hbot Hfit.
  pose proof (len_nonneg (lines m)) as Hlen.
  unfold LineUp, LineDown, call, LineDown_body, LineUp_body, AtTop.
  rewrite Hbot. rewrite (range_exact m Hw Hh0).
  destruct Hw as (Hw & Hh & Ho & Hy & Hl).
  unfold is_int, int_min, int_max in *.
  destruct (Z.eqb_spec n 0); [ lia | ]. cbn [orb].
  cbn [YOffset set_YOffset]. rewrite max_is_Zmax, !min_is_Zmin.
  exact_int.
  destruct (Z.leb_spec (Z.min (YOffset m + n) (len (lines m) - Height m)) 0);
    [ lia | ].
  cbn [orb]. exact_int.
  replace (Z.max (Z.min (YOffset m + n) (len (lines m) - Height m) - n) 0)
    with (YOffset m) by lia.
  destruct m; reflexivity.
Qed.

Lemma LineDown_then_LineUp_witness :
  well_typed (Samples.pager 25 10 4) /\
  0 <= Height (Samples.pager 25 10 4) /\
  0 <= YOffset (Samples.pager 25 10 4) /\ 0 < 3 /\
  AtBottom (Samples.pager 25 10 4) = false /\
  YOffset (Samples.pager 25 10 4) + 3
  <= len (lines (Samples.pager 25 10 4)) - Height (Samples.pager 25 10 4) /\
  LineUp (LineDown (Samples.pager 25 10 4) 3) 3 = Samples.pager 25 10 4.
Proof.
  assert (W : well_typed (Samples.pager 25 10 4)).
  { unfold well_typed, is_int. vm_compute. repeat split; discriminate. }
  assert (H : 0 <= Height (Samples.pager 25 10 4))
    by (vm_compute; discriminate).
  assert (O : 0 <= YOffset (Samples.pager 25 10 4))
    by (vm_compute; discriminate).
  assert (N : 0 < 3) by lia.
  assert (F : YOffset (Samples.pager 25 10 4) + 3
              <= len (lines (Samples.pager 25 10 4))
                 - Height (Samples.pager 25 10 4))
    by (vm_compute; discriminate).
  split; [ exact W | split; [ exact H | split; [ exact O | ] ] ].
  split; [ exact N | split; [ reflexivity | split; [ exact F | ] ] ].
  apply (LineDown_then_LineUp (Samples.pager 25 10 4) 3 W H O N eq_refl F).
Defined.

End Navigation.


(** ** More on the viewport: what is rendered and what is synchronised *)

Section Rows.
Import Go viewport.








(** [SetContent] leaves the offset alone: once the content is replaced
    by a text with fewer lines than the offset, the standard rendering
    panics. *)
Theorem View_after_shorter_content_panics (m : Model) (s : gostring) :
  HighPerformanceRendering m = false -> Err m = None ->
  len (lines (SetContent m s)) < YOffset m ->
  View (SetContent m s) = Panic SliceBounds.
Proof.
  intros Hhp Herr Hshort.
  pose proof (split_from_nonempty [LF] (Replace s [CR; LF] [LF] (-1)) 0)
    as Hne.
  unfold SetContent, call, SetContent_body in *.
  cbn [lines set_lines] in Hshort. fold (Split (Replace s [CR; LF] [LF] (-1)) [LF]) in Hne.
  unfold View.
  cbn [HighPerformanceRendering Err lines YOffset Height set_lines].
  rewrite Hhp, Herr.
  set (ls := Split (Replace s [CR; LF] [LF] (-1)) [LF]) in *.
  assert (Hpos : 0 < len ls).
  { destruct ls; [ congruence | unfold len; cbn [List.length]; lia ]. }
  destruct (Z.gtb_spec (len ls) 0); [ | lia ].
  rewrite max_is_Zmax, min_is_Zmin.
  rewrite slice_Panic by lia. reflexivity.
Qed.

Lemma View_after_shorter_content_panics_witness :
  HighPerformanceRendering (Samples.pager 25 10 15) = false /\
  Err (Samples.pager 25 10 15) = None /\
  len (lines (SetContent (Samples.pager 25 10 15) Samples.abc_crlf))
  < YOffset (Samples.pager 25 10 15) /\
  View (SetContent (Samples.pager 25 10 15) Samples.abc_crlf)
  = Panic SliceBounds.
Proof.
  assert (L : len (lines (SetContent (Samples.pager 25 10 15)
                                     Samples.abc_crlf))
              < YOffset (Samples.pager 25 10 15))
    by (vm_compute; reflexivity).
  split; [ reflexivity | split; [ reflexivity | split; [ exact L | ] ] ].
  apply (View_after_shorter_content_panics (Samples.pager 25 10 15)
           Samples.abc_crlf eq_refl eq_refl L).
Defined.

(** [Sync] panics on a viewport that has no lines, such as a new one
    before [SetContent]. *)
Theorem Sync_without_lines_panics (m : Model) :
  lines m = [] -> Cmds.Sync m = Panic SliceBounds.
Proof.
  intros E. unfold Cmds.Sync. rewrite E.
  rewrite max_is_Zmax, min_is_Zmin.
  change (sub (len []) 1) with (-1).
  rewrite slice_Panic by lia. reflexivity.
Qed.

Lemma Sync_without_lines_panics_witness :
  lines (NewModel 80 24) = [] /\
  Cmds.Sync (NewModel 80 24) = Panic SliceBounds.
Proof.
  split; [ reflexivity | ].
  apply (Sync_without_lines_panics (NewModel 80 24) eq_refl).
Defined.

(** On a viewport with content, within the invariant and with at least
    one row, [Sync] returns the rows that [View] shows, the last line of
    the content left out: a window that reaches the end of the content
    is synchronised one row short. *)
Theorem Sync_rows (m : Model) :
  well_typed m -> 1 <= Height m -> offset_ok m -> lines m <> [] ->
  exists ls vis,
    Cmds.Sync m = Ok (SyncScrollArea ls (YPosition m)
                                     (add (YPosition m) (Height m))) /\
    visible m = Ok vis /\
    ls = firstn (Z.to_nat (len (lines m) - 1 - YOffset m)) vis.
Proof.
  intros (Hw & Hh & Ho & Hy & Hl) Hh1 [Ho0 Ho1] Hne.
  pose proof (len_nonneg (lines m)) as Hlen.
  assert (Hpos : 0 < len (lines m)).
  { destruct (lines m); [ congruence | unfold len; cbn; lia ]. }
  unfold is_int, int_min, int_max in *.
  unfold Cmds.Sync, visible.
  destruct (Z.gtb_spec (len (lines m)) 0); [ | lia ].
  rewrite !max_is_Zmax, !min_is_Zmin.
  assert (Ea : add (YOffset m) (Height m) = YOffset m + Height m)
    by (exact_int; reflexivity).
  assert (Es : sub (len (lines m)) 1 = len (lines m) - 1)
    by (exact_int; reflexivity).
  rewrite Ea, Es. rewrite !slice_Ok by lia. cbn [bind].
  rewrite (Z.max_l (YOffset m) 0), (Z.max_r 0 (YOffset m)) by lia.
  eexists. eexists. split; [ reflexivity | split; [ reflexivity | ] ].
  rewrite firstn_firstn. f_equal. lia.
Qed.

Lemma Sync_rows_witness :
  well_typed (Samples.fast_pager 25 10 15) /\
  1 <= Height (Samples.fast_pager 25 10 15) /\
  offset_ok (Samples.fast_pager 25 10 15) /\
  lines (Samples.fast_pager 25 10 15) <> [] /\
  exists ls vis,
    Cmds.Sync (Samples.fast_pager 25 10 15)
    = Ok (SyncScrollArea ls (YPosition (Samples.fast_pager 25 10 15))
            (add (YPosition (Samples.fast_pager 25 10 15))
                 (Height (Samples.fast_pager 25 10 15)))) /\
    visible (Samples.fast_pager 25 10 15) = Ok vis /\
    ls = firstn (Z.to_nat (len (lines (Samples.fast_pager 25 10 15)) - 1
                           - YOffset (Samples.fast_pager 25 10 15))) vis.
Proof.
  assert (W : well_typed (Samples.fast_pager 25 10 15)).
  { unfold well_typed, is_int. vm_compute. repeat split; discriminate. }
  assert (H : 1 <= Height (Samples.fast_pager 25 10 15))
    by (vm_compute; discriminate).
  assert (O : offset_ok (Samples.fast_pager 25 10 15))
    by (vm_compute; split; discriminate).
  assert (N : lines (Samples.fast_pager 25 10 15) <> [])
    by (vm_compute; discriminate).
  split; [ exact W | split; [ exact H | split; [ exact O | ] ] ].
  split; [ exact N | ].
  apply (Sync_rows (Samples.fast_pager 25 10 15) W H O N).
Defined.

End Rows.


(** ** The form: where the focus goes *)

Section FormFocus.
Import Go main.
Variable W : Widget.
Variable T : Theme.
Variable input_Update : Msg W -> InputModel W -> result (InputModel W).

Abbreviation update := (main.update W T input_Update).
Abbreviation presses := (main.presses W T input_Update).

Ltac focus_moved :=
  eexists; (split; [ reflexivity | ]);
  repeat match goal with
         | |- context [?a =? ?b] => destruct (Z.eqb_spec a b)
         end;
  cbn [index set_submitButton set_inputs set_index];
  try reflexivity; lia.

Lemma step_exact (i : Z) :
  0 <= i <= 3 -> add i 1 = i + 1 /\ sub i 1 = i - 1.
Proof.
  intros H. unfold is_int, int_min, int_max in *. split; exact_int; reflexivity.
Qed.

(** The state after a key that moves the focus, short of the keys that
    quit. *)
Lemma update_moves_focus (s : gostring) (m : Model W) :
  0 <= index W m <= 3 ->
  is_key s "ctrl+c" = false -> moves_focus s = true ->
  (is_key s "enter" && (index W m =? 3)) = false ->
  exists m',
    update (KeyMsg W s) m = Ok (m', NoCmd) /\
    index W m'
    = (if is_key s "up" || is_key s "shift+tab"
       then (if index W m =? 0 then 3 else index W m - 1)
       else (if index W m =? 3 then 0 else index W m + 1)).
Proof.
  intros Hr Hc Hm He. destruct (step_exact (index W m) Hr) as [Ea Es].
  unfold main.update. rewrite Hc.
  unfold moves_focus in Hm. rewrite Hm.
  change (len [nameInput W m; nickNameInput W m; emailInput W m]) with 3.
  rewrite He.
  destruct (is_key s "up" || is_key s "shift+tab").
  - cbn [index set_index]. rewrite Es.
    destruct (Z.gtb_spec (index W m - 1) 3); [ lia | ].
    destruct (Z.ltb_spec (index W m - 1) 0); focus_moved.
  - cbn [index set_index]. rewrite Ea.
    destruct (Z.gtb_spec (index W m + 1) 3);
      [ | destruct (Z.ltb_spec (index W m + 1) 0); [ lia | ] ];
      focus_moved.
Qed.

Lemma updateInputs_index (msg : Msg W) (m m' : Model W) :
  main.updateInputs W input_Update msg m = Ok m' -> index W m' = index W m.
Proof.
  unfold main.updateInputs. intros H.
  repeat match type of H with
         | context [bind ?r _] => destruct r; cbn [bind] in H
         end; try discriminate.
  injection H as <-. reflexivity.
Qed.

(** The focus of the form stays on one of its four positions, the three
    inputs and the button, whatever the message. *)
Theorem form_index_in_range (msg : Msg W) (m m' : Model W) (c : Cmd) :
  update msg m = Ok (m', c) -> 0 <= index W m <= 3 -> 0 <= index W m' <= 3.
Proof.
  intros H Hr.
  assert (Hother : forall msg0 r,
             (m0 <- main.updateInputs W input_Update msg0 m ;; Ok (m0, NoCmd))
             = Ok (m', r) -> 0 <= index W m' <= 3).
  { intros msg0 r E.
    destruct (main.updateInputs W input_Update msg0 m) as [m0|] eqn:E0;
      cbn [bind] in E; [ | discriminate ].
    injection E as <- _. rewrite (updateInputs_index _ _ _ E0). exact Hr. }
  destruct msg as [s|o]; [ | exact (Hother _ _ H) ].
  destruct (is_key s "ctrl+c") eqn:Hc.
  { unfold main.update in H. rewrite Hc in H. injection H as <- _. exact Hr. }
  destruct (moves_focus s) eqn:Hm.
  - destruct (is_key s "enter" && (index W m =? 3)) eqn:He.
    + unfold main.update in H. rewrite Hc in H.
      unfold moves_focus in Hm. rewrite Hm in H.
      change (len [nameInput W m; nickNameInput W m; emailInput W m])
        with 3 in H.
      rewrite He in H. injection H as <- _. exact Hr.
    + destruct (update_moves_focus s m Hr Hc Hm He) as (m1 & E1 & Ei).
      rewrite E1 in H. injection H as <- _. rewrite Ei.
      destruct (is_key s "up" || is_key s "shift+tab");
        destruct (Z.eqb_spec (index W m) 0);
        destruct (Z.eqb_spec (index W m) 3); lia.
  - unfold main.update in H. rewrite Hc in H.
    unfold moves_focus in Hm. rewrite Hm in H. exact (Hother _ _ H).
Qed.

(** The form quits on ctrl+c and on enter with the focus on the button,
    and on nothing else; when it quits the model is unchanged. *)
Theorem form_quits_iff (msg : Msg W) (m m' : Model W) (c : Cmd) :
  update msg m = Ok (m', c) ->
  (c = Quit <->
   exists s, msg = KeyMsg W s /\
             (is_key s "ctrl+c" = true \/
              (is_key s "enter" = true /\ index W m = 3))) /\
  (c = Quit -> m' = m).
Proof.
  intros H.
  assert (Hother : forall msg0,
             (m0 <- main.updateInputs W input_Update msg0 m ;; Ok (m0, NoCmd))
             = Ok (m', c) -> c = NoCmd).
  { intros msg0 E.
    destruct (main.updateInputs W input_Update msg0 m); cbn [bind] in E;
      [ | discriminate ].
    injection E as _ <-. reflexivity. }
  destruct msg as [s|o].
  - unfold main.update in H.
    destruct (is_key s "ctrl+c") eqn:Hc.
    { injection H as <- <-. split; [ | reflexivity ].
      split; [ | reflexivity ]. intros _. exists s. auto. }
    fold (moves_focus s) in H.
    destruct (moves_focus s) eqn:Hm.
    + change (len [nameInput W m; nickNameInput W m; emailInput W m])
        with 3 in H.
      destruct (is_key s "enter") eqn:Hen;
        destruct (Z.eqb_spec (index W m) 3) as [Hi|Hi]; cbn [andb] in H.
      * injection H as <- <-. split; [ | reflexivity ].
        split; [ | reflexivity ]. intros _. exists s. auto.
      * cbn [bind restyle Go.index] in H.
        assert (c = NoCmd) as -> by (cbn in H; injection H as _ <-; reflexivity).
        split; [ | discriminate ]. split; [ discriminate | ].
        intros (s' & E & [Hc'|[_ Hi']]); injection E as <-; congruence.
      * assert (c = NoCmd) as -> by (cbn in H; injection H as _ <-; reflexivity).
        split; [ | discriminate ]. split; [ discriminate | ].
        intros (s' & E & [Hc'|[He' _]]); injection E as <-; congruence.
      * assert (c = NoCmd) as -> by (cbn in H; injection H as _ <-; reflexivity).
        split; [ | discriminate ]. split; [ discriminate | ].
        intros (s' & E & [Hc'|[He' _]]); injection E as <-; congruence.
    + rewrite (Hother _ H). split; [ | discriminate ].
      split; [ discriminate | ].
      intros (s' & E & [Hc'|[He' _]]); injection E as <-; [ congruence | ].
      unfold moves_focus in Hm. rewrite He' in Hm.
      rewrite !orb_true_r in Hm. cbn in Hm. discriminate.
  - unfold main.update in H. rewrite (Hother _ H).
    split; [ | discriminate ]. split; [ discriminate | ].
    intros (s' & E & _). discriminate.
Qed.

Lemma press_once (s : gostring) (m : Model W) :
  0 <= index W m <= 3 -> steps_focus s ->
  exists m',
    update (KeyMsg W s) m = Ok (m', NoCmd) /\
    0 <= index W m' <= 3 /\
    index W m'
    = (if steps_back s
       then (if index W m =? 0 then 3 else index W m - 1)
       else (if index W m =? 3 then 0 else index W m + 1)).
Proof.
  intros Hr (Hc & Hm & He).
  assert (He' : (is_key s "enter" && (index W m =? 3)) = false)
    by (rewrite He; reflexivity).
  destruct (update_moves_focus s m Hr Hc Hm He') as (m' & E & Ei).
  exists m'. split; [ exact E | ]. split; [ | exact Ei ].
  rewrite Ei.
  destruct (is_key s "up" || is_key s "shift+tab");
    destruct (Z.eqb_spec (index W m) 0);
    destruct (Z.eqb_spec (index W m) 3); lia.
Qed.

(** Four presses of a key that steps the focus bring it back to where
    it was: the form has four positions and the focus wraps around at
    both ends. *)
Theorem form_focus_cycle (s : gostring) (m : Model W) :
  0 <= index W m <= 3 -> steps_focus s ->
  exists m4, presses 4 s m = Ok m4 /\ index W m4 = index W m.
Proof.
  intros Hr Hs.
  destruct (press_once s m Hr Hs) as (m1 & E1 & R1 & I1).
  destruct (press_once s m1 R1 Hs) as (m2 & E2 & R2 & I2).
  destruct (press_once s m2 R2 Hs) as (m3 & E3 & R3 & I3).
  destruct (press_once s m3 R3 Hs) as (m4 & E4 & R4 & I4).
  exists m4. split.
  - cbn [main.presses]. rewrite E1. cbn [bind fst].
    rewrite E2. cbn [bind fst]. rewrite E3. cbn [bind fst].
    rewrite E4. reflexivity.
  - rewrite I4, I3, I2, I1.
    assert (Hi : index W m = 0 \/ index W m = 1 \/ index W m = 2
                 \/ index W m = 3) by lia.
    destruct (steps_back s);
      destruct Hi as [-> | [-> | [-> | ->]]]; reflexivity.
Qed.

(** A step forwards and then a step backwards leave the focus where it
    was. *)
Theorem form_focus_back_and_forth (s1 s2 : gostring) (m : Model W) :
  0 <= index W m <= 3 -> steps_focus s1 -> steps_focus s2 ->
  steps_back s1 = false -> steps_back s2 = true ->
  exists m2,
    (r <- update (KeyMsg W s1) m ;; update (KeyMsg W s2) (fst r))
    = Ok (m2, NoCmd) /\
    index W m2 = index W m.
Proof.
  intros Hr H1 H2 B1 B2.
  destruct (press_once s1 m Hr H1) as (m1 & E1 & R1 & I1).
  destruct (press_once s2 m1 R1 H2) as (m2 & E2 & R2 & I2).
  exists m2. split.
  - rewrite E1. cbn [bind fst]. exact E2.
  - rewrite I2, I1, B1, B2.
    assert (Hi : index W m = 0 \/ index W m = 1 \/ index W m = 2
                 \/ index W m = 3) by lia.
    destruct Hi as [-> | [-> | [-> | ->]]]; reflexivity.
Qed.

End FormFocus.

Section FormWitnesses.
Import Go main.

Lemma tab_steps_focus : steps_focus (str "tab").
Proof. repeat split. Defined.

Lemma up_steps_focus : steps_focus (str "up").
Proof. repeat split. Defined.

Lemma form_index_in_range_witness :
  main.update Samples.flag_widget Samples.theme Samples.idle
              (KeyMsg Samples.flag_widget (str "tab")) (Samples.form 3)
  = Ok (Samples.form_on_name, NoCmd) /\
  0 <= index Samples.flag_widget (Samples.form 3) <= 3 /\
  0 <= index Samples.flag_widget Samples.form_on_name <= 3.
Proof.
  assert (R : 0 <= index Samples.flag_widget (Samples.form 3) <= 3)
    by (cbn; lia).
  split; [ reflexivity | split; [ exact R | ] ].
  apply (form_index_in_range Samples.flag_widget Samples.theme Samples.idle
           (KeyMsg Samples.flag_widget (str "tab")) (Samples.form 3)
           Samples.form_on_name NoCmd eq_refl R).
Defined.

Lemma form_quits_iff_witness :
  main.update Samples.flag_widget Samples.theme Samples.idle
              (KeyMsg Samples.flag_widget (str "enter")) (Samples.form 3)
  = Ok (Samples.form 3, Quit) /\
  (Quit = Quit -> Samples.form 3 = Samples.form 3).
Proof.
  split; [ reflexivity | ].
  apply (form_quits_iff Samples.flag_widget Samples.theme Samples.idle
           (KeyMsg Samples.flag_widget (str "enter")) (Samples.form 3)
           (Samples.form 3) Quit eq_refl).
Defined.

Lemma form_focus_cycle_witness :
  0 <= index Samples.flag_widget (Samples.form 2) <= 3 /\
  steps_focus (str "tab") /\
  exists m4,
    main.presses Samples.flag_widget Samples.theme Samples.idle
                 4 (str "tab") (Samples.form 2) = Ok m4 /\
    index Samples.flag_widget m4 = index Samples.flag_widget (Samples.form 2).
Proof.
  assert (R : 0 <= index Samples.flag_widget (Samples.form 2) <= 3)
    by (cbn; lia).
  split; [ exact R | split; [ exact tab_steps_focus | ] ].
  apply (form_focus_cycle Samples.flag_widget Samples.theme Samples.idle
           (str "tab") (Samples.form 2) R tab_steps_focus).
Defined.

Lemma form_focus_back_and_forth_witness :
  0 <= index Samples.flag_widget (Samples.form 3) <= 3 /\
  steps_focus (str "tab") /\ steps_focus (str "up") /\
  steps_back (str "tab") = false /\ steps_back (str "up") = true /\
  exists m2,
    (r <- main.update Samples.flag_widget Samples.theme Samples.idle
            (KeyMsg Samples.flag_widget (str "tab")) (Samples.form 3) ;;
     main.update Samples.flag_widget Samples.theme Samples.idle
       (KeyMsg Samples.flag_widget (str "up")) (fst r))
    = Ok (m2, NoCmd) /\
    index Samples.flag_widget m2 = index Samples.flag_widget (Samples.form 3).
Proof.
  assert (R : 0 <= index Samples.flag_widget (Samples.form 3) <= 3)
    by (cbn; lia).
  split; [ exact R | ].
  split; [ exact tab_steps_focus | split; [ exact up_steps_focus | ] ].
  split; [ reflexivity | split; [ reflexivity | ] ].
  apply (form_focus_back_and_forth Samples.flag_widget Samples.theme
           Samples.idle (str "tab") (str "up") (Samples.form 3)
           R tab_steps_focus up_steps_focus eq_refl eq_refl).
Defined.

End FormWitnesses.
